(** * Conversational memory and task extraction: a shallow embedding

    The development follows [backend/services/memory_system.py] and
    [backend/services/task_extractor.py], with the two date cut-offs of
    [conversation_manager.py] and [ai_prompt_system.py].

    Conventions of the embedding.
    - A Python [str] is the list of its code points ([len] is [length]).
    - A Python [float] is read as the rational it denotes: scores, thresholds
      and sort keys are in [Q], and rounding is not modelled.
    - A [datetime] is a point of the proleptic Gregorian time line: the value
      of [toordinal()] and the microseconds elapsed in that day.  The bounds
      of the type (years 1 to 9999) are not modelled.
    - A [try: ... except Exception] block is [try_except] over a [result].
    - The embedding model, the completion service, the JSON parser, the
      Unicode case tables and the document store are collaborators: they are
      the variables of the sections below. *)

From Stdlib Require Import String Ascii.
From Stdlib Require Import List ZArith NArith QArith Qminmax Bool Lia Lqa.
From Stdlib Require Import Sorted Permutation.
Import ListNotations.

Set Implicit Arguments.
Set Warnings "-register-all".

(* ================================================================== *)
(** * 1. Exceptions and results                                        *)
(* ================================================================== *)

(** Code points and strings. *)
Definition char := N.
Definition str := list char.

Inductive exn_class :=
| KeyError | AttributeError | TypeError | ValueError | JSONDecodeError
| OtherError.

(** An exception: its class and what [str(e)] prints. *)
Record exn := Exn { exn_kind : exn_class; exn_message : str }.

Inductive result (A : Type) :=
| Ok (a : A)
| Raise (e : exn).
Arguments Ok {A} a.
Arguments Raise {A} e.

Definition bind {A B} (r : result A) (k : A -> result B) : result B :=
  match r with
  | Ok a => k a
  | Raise e => Raise e
  end.

Notation "x <- c1 ;; c2" := (bind c1 (fun x => c2))
  (at level 61, c1 at next level, right associativity).

(** [try: body except Exception as e: handler(e)]. *)
Definition try_except {A} (body : result A) (handler : exn -> A) : A :=
  match body with
  | Ok a => a
  | Raise e => handler e
  end.

Definition is_ok {A} (r : result A) : bool :=
  match r with Ok _ => true | Raise _ => false end.

(* ================================================================== *)
(** * 2. Strings                                                       *)
(* ================================================================== *)

(** The source files are UTF-8: a literal is decoded to code points. *)
Fixpoint utf8_go (need : nat) (acc : N) (bs : list N) : str :=
  match bs with
  | [] => []
  | b :: bs' =>
      match need with
      | O =>
          if (b <? 128)%N then b :: utf8_go 0 0 bs'
          else if (b <? 224)%N then utf8_go 1 (b - 192) bs'
          else if (b <? 240)%N then utf8_go 2 (b - 224) bs'
          else utf8_go 3 (b - 240) bs'
      | S O => (acc * 64 + (b - 128))%N :: utf8_go 0 0 bs'
      | S n => utf8_go n (acc * 64 + (b - 128))%N bs'
      end
  end.

Definition py (s : string) : str :=
  utf8_go 0 0 (map N_of_ascii (list_ascii_of_string s)).

Fixpoint str_eqb (a b : str) : bool :=
  match a, b with
  | [], [] => true
  | x :: a', y :: b' => (x =? y)%N && str_eqb a' b'
  | _, _ => false
  end.

(** [s.startswith(p)]. *)
Fixpoint startswith (p s : str) : bool :=
  match p, s with
  | [], _ => true
  | x :: p', y :: s' => (x =? y)%N && startswith p' s'
  | _ :: _, [] => false
  end.

(** [sub in s]. *)
Fixpoint contains (sub s : str) : bool :=
  startswith sub s ||
  match s with
  | [] => false
  | _ :: s' => contains sub s'
  end.

(** The code points for which [str.isspace] holds. *)
Definition isspace (c : char) : bool :=
  ((9 <=? c) && (c <=? 13) || (28 <=? c) && (c <=? 32)
   || (c =? 133) || (c =? 160) || (c =? 5760)
   || (8192 <=? c) && (c <=? 8202)
   || (c =? 8232) || (c =? 8233) || (c =? 8239) || (c =? 8287)
   || (c =? 12288))%N.

(** [s.lstrip()], [s.rstrip()], [s.strip()]. *)
Fixpoint lstrip (s : str) : str :=
  match s with
  | c :: s' => if isspace c then lstrip s' else s
  | [] => []
  end.

Definition rstrip (s : str) : str := rev (lstrip (rev s)).
Definition strip (s : str) : str := rstrip (lstrip s).

(** [s.split()]: maximal runs of non-space code points. *)
Fixpoint split_go (cur : str) (s : str) : list str :=
  match s with
  | [] => match cur with [] => [] | _ => [rev cur] end
  | c :: s' =>
      if isspace c
      then match cur with
           | [] => split_go [] s'
           | _ => rev cur :: split_go [] s'
           end
      else split_go (c :: cur) s'
  end.

Definition split (s : str) : list str := split_go [] s.

(** [re.split(r'[.!?]', s)]: n separators give n+1 pieces. *)
Definition is_sentence_end (c : char) : bool :=
  ((c =? 46) || (c =? 33) || (c =? 63))%N.

Fixpoint re_split_go (cur : str) (s : str) : list str :=
  match s with
  | [] => [rev cur]
  | c :: s' =>
      if is_sentence_end c then rev cur :: re_split_go [] s'
      else re_split_go (c :: cur) s'
  end.

Definition re_split_sentences (s : str) : list str := re_split_go [] s.

(** [s.replace(old, new)] for a non-empty [old]: occurrences are replaced
    from the left and do not overlap. *)
Fixpoint replace_go (old new : str) (skip : nat) (s : str) : str :=
  match s with
  | [] => []
  | c :: s' =>
      match skip with
      | S k => replace_go old new k s'
      | O =>
          if startswith old s
          then new ++ replace_go old new (length old - 1) s'
          else c :: replace_go old new 0 s'
      end
  end.

Definition replace (old new s : str) : str := replace_go old new 0 s.

(** [re.sub(r'^(p1|p2|...)', '', s)]: the first alternative that matches at
    the start is removed. *)
Fixpoint re_sub_prefix (alts : list str) (s : str) : str :=
  match alts with
  | [] => s
  | p :: alts' =>
      if startswith p s then skipn (length p) s else re_sub_prefix alts' s
  end.

(** [set(words)]: the distinct words. *)
Fixpoint mem (w : str) (ws : list str) : bool :=
  match ws with
  | [] => false
  | x :: ws' => str_eqb w x || mem w ws'
  end.

Fixpoint to_set (ws : list str) : list str :=
  match ws with
  | [] => []
  | w :: ws' => if mem w ws' then to_set ws' else w :: to_set ws'
  end.

Definition intersection (a b : list str) : list str :=
  filter (fun w => mem w b) a.

Definition union (a b : list str) : list str :=
  a ++ filter (fun w => negb (mem w a)) b.

(** Decimal digits, for [strftime]. *)
Definition digit (n : Z) : char := Z.to_N (48 + n mod 10).

Definition pad2 (n : Z) : str := [digit (n / 10); digit n].
Definition pad4 (n : Z) : str :=
  [digit (n / 1000); digit (n / 100); digit (n / 10); digit n].

(* ================================================================== *)
(** * 3. Dates                                                         *)
(* ================================================================== *)

Record datetime := DateTime {
  ordinal : Z;      (* date.toordinal(): 1 is 0001-01-01 *)
  micros : Z        (* microseconds since midnight *)
}.

Definition is_leap (y : Z) : bool :=
  (y mod 4 =? 0)%Z && (negb (y mod 100 =? 0)%Z || (y mod 400 =? 0)%Z).

Definition days_before_year (year : Z) : Z :=
  let y := (year - 1)%Z in (y * 365 + y / 4 - y / 100 + y / 400)%Z.

Definition days_in_month_table : list Z :=
  [-1; 31; 28; 31; 30; 31; 30; 31; 31; 30; 31; 30; 31]%Z.

Definition days_before_month_table : list Z :=
  [-1; 0; 31; 59; 90; 120; 151; 181; 212; 243; 273; 304; 334]%Z.


Definition days_before_month (year month : Z) : Z :=
  (nth (Z.to_nat month) days_before_month_table 0
   + (if (2 <? month) && is_leap year then 1 else 0))%Z.

Definition ymd2ord (year month day : Z) : Z :=
  (days_before_year year + days_before_month year month + day)%Z.

(** The year, month and day of an ordinal, as [datetime._ord2ymd]. *)
Definition ord2ymd (n0 : Z) : Z * Z * Z :=
  let n := (n0 - 1)%Z in
  let n400 := (n / 146097)%Z in
  let n := (n mod 146097)%Z in
  let n100 := (n / 36524)%Z in
  let n := (n mod 36524)%Z in
  let n4 := (n / 1461)%Z in
  let n := (n mod 1461)%Z in
  let n1 := (n / 365)%Z in
  let n := (n mod 365)%Z in
  let year := (n400 * 400 + 1 + n100 * 100 + n4 * 4 + n1)%Z in
  if (n1 =? 4)%Z || (n100 =? 4)%Z then ((year - 1)%Z, 12%Z, 31%Z)
  else
    let leapyear :=
      (n1 =? 3)%Z && (negb (n4 =? 24)%Z || (n100 =? 3)%Z) in
    let month := Z.shiftr (n + 50) 5 in
    let preceding :=
      (nth (Z.to_nat month) days_before_month_table 0
       + (if (2 <? month)%Z && leapyear then 1 else 0))%Z in
    if (n <? preceding)%Z
    then
      let month' := (month - 1)%Z in
      let preceding' :=
        (preceding
         - (nth (Z.to_nat month') days_in_month_table 0
            + (if (month' =? 2)%Z && leapyear then 1 else 0)))%Z in
      (year, month', (n - preceding' + 1)%Z)
    else (year, month, (n - preceding + 1)%Z).

Definition dt_year (t : datetime) : Z := fst (fst (ord2ymd (ordinal t))).
Definition dt_month (t : datetime) : Z := snd (fst (ord2ymd (ordinal t))).
Definition dt_day (t : datetime) : Z := snd (ord2ymd (ordinal t)).

(** [t.weekday()]: Monday is 0. *)
Definition weekday (t : datetime) : Z := ((ordinal t + 6) mod 7)%Z.

(** [t + timedelta(days=k)] and [t - timedelta(days=k)]. *)
Definition add_days (t : datetime) (k : Z) : datetime :=
  DateTime (ordinal t + k) (micros t).

Definition sub_days (t : datetime) (k : Z) : datetime :=
  DateTime (ordinal t - k) (micros t).


(** [t.strftime('%Y-%m-%d')]. *)
Definition strftime_ymd (t : datetime) : str :=
  pad4 (dt_year t) ++ [45%N] ++ pad2 (dt_month t) ++ [45%N] ++ pad2 (dt_day t).

(** [a < b] and [a >= b] on datetimes. *)
Definition dt_ltb (a b : datetime) : bool :=
  (ordinal a <? ordinal b)%Z
  || (ordinal a =? ordinal b)%Z && (micros a <? micros b)%Z.

Definition dt_geb (a b : datetime) : bool := negb (dt_ltb a b).

Definition mk_date (y m d : Z) : datetime := DateTime (ymd2ord y m d) 0.

(* ================================================================== *)
(** * 4. Values and documents                                          *)
(* ================================================================== *)

(** The values a [Dict[str, Any]] of the program holds: what [json.loads]
    returns and what the store gives back. *)
Inductive pyval :=
| PNone
| PBool (b : bool)
| PNum (q : Q)
| PStr (s : str)
| PList (l : list pyval)
| PDict (d : list (str * pyval)).

Definition dict := list (str * pyval).

(** [d.get(k)]. *)
Fixpoint dget (k : str) (d : dict) : option pyval :=
  match d with
  | [] => None
  | (k', v) :: d' => if str_eqb k k' then Some v else dget k d'
  end.

(** [d.get(k, default)]. *)
Definition dget_default (k : str) (default : pyval) (d : dict) : pyval :=
  match dget k d with Some v => v | None => default end.

(** [d[k]]. *)
Definition getitem (k : str) (d : dict) : result pyval :=
  match dget k d with
  | Some v => Ok v
  | None => Raise (Exn KeyError ([39%N] ++ k ++ [39%N]))
  end.

(** [d[k] = v]. *)
Fixpoint dset (k : str) (v : pyval) (d : dict) : dict :=
  match d with
  | [] => [(k, v)]
  | (k', v') :: d' =>
      if str_eqb k k' then (k, v) :: d' else (k', v') :: dset k v d'
  end.

(** [bool(v)]. *)
Definition truthy (v : pyval) : bool :=
  match v with
  | PNone => false
  | PBool b => b
  | PNum q => negb (Qeq_bool q 0)
  | PStr s => match s with [] => false | _ => true end
  | PList l => match l with [] => false | _ => true end
  | PDict d => match d with [] => false | _ => true end
  end.

Definition truthy_opt (o : option pyval) : bool :=
  match o with Some v => truthy v | None => false end.

(** [v == s] for a string literal [s]. *)
Definition is_str (v : pyval) (s : str) : bool :=
  match v with PStr x => str_eqb x s | _ => false end.

(** [v.lower()] raises [AttributeError] unless [v] is a string. *)
Definition as_str (v : pyval) : result str :=
  match v with
  | PStr s => Ok s
  | _ => Raise (Exn AttributeError (py "object has no attribute 'lower'"))
  end.

Definition vec := list Q.

(** A document of the [conversation_memory] collection.  The fields that
    the program reads with a membership test or with [.get] may be absent. *)
Record memory := Memory {
  mem_id : str;
  mem_user_id : str;
  mem_conversation_id : str;
  user_message : str;
  ai_response : str;
  message_type : str;
  embedding : option vec;
  timestamp : datetime;
  importance_score : option Q;
  topics_mentioned : list str;
  emotions_detected : list str;
  similarity_score : option Q
}.

(** [memory['similarity_score'] = s]. *)
Definition set_similarity (m : memory) (s : Q) : memory :=
  Memory (mem_id m) (mem_user_id m) (mem_conversation_id m) (user_message m)
    (ai_response m) (message_type m) (embedding m) (timestamp m)
    (importance_score m) (topics_mentioned m) (emotions_detected m) (Some s).

(** [memory.setdefault('importance_score', q)]. *)
Definition default_importance (q : Q) (m : memory) : memory :=
  Memory (mem_id m) (mem_user_id m) (mem_conversation_id m) (user_message m)
    (ai_response m) (message_type m) (embedding m) (timestamp m)
    (match importance_score m with Some i => Some i | None => Some q end)
    (topics_mentioned m) (emotions_detected m) (similarity_score m).

(** A query document on [conversation_memory]: the conjunction of its
    clauses. *)
Inductive clause :=
| UserIdEq (u : str)                (* {'user_id': u} *)
| ConversationIdEq (c : str)        (* {'conversation_id': c} *)
| TimestampLt (t : datetime)        (* {'timestamp': {'$lt': t}} *)
| TimestampGte (t : datetime)       (* {'timestamp': {'$gte': t}} *)
| ImportanceLt (q : Q).             (* {'importance_score': {'$lt': q}} *)

Definition query := list clause.

Definition Qltb (a b : Q) : bool := negb (Qle_bool b a).

(** A comparison clause matches no document that lacks the field. *)
Definition clause_matches (c : clause) (m : memory) : bool :=
  match c with
  | UserIdEq u => str_eqb (mem_user_id m) u
  | ConversationIdEq c => str_eqb (mem_conversation_id m) c
  | TimestampLt t => dt_ltb (timestamp m) t
  | TimestampGte t => dt_geb (timestamp m) t
  | ImportanceLt q =>
      match importance_score m with
      | Some i => Qltb i q
      | None => false
      end
  end.

Definition query_matches (q : query) (m : memory) : bool :=
  forallb (fun c => clause_matches c m) q.

(** A document of [task_extractions_log]. *)
Record log_entry := LogEntry {
  log_user_id : str;
  log_conversation_id : str;
  original_message : str;
  tasks_extracted : Z;
  extraction_confidence : Q;
  log_timestamp : datetime;
  tasks_details : list dict
}.

(** A document of [conversations], as far as the clean-up reads it. *)
Record conversation := Conversation {
  last_message_at : datetime;
  is_active : bool;
  message_count : Z;
  cleanup_reason : option str;
  updated_at : datetime
}.

(** The document store.  [S] is the state of the store; a read leaves it
    as it is; every operation can fail. *)
Record storage (S : Type) := Storage {
  (* conversation_memory *)
  memory_insert_one : memory -> S -> S * result unit;
  (* find(q).sort('timestamp', -1).limit(n).to_list(n) *)
  memory_find_recent : query -> nat -> S -> result (list memory);
  memory_count_documents : query -> S -> result Z;
  memory_delete_many : query -> S -> S * result Z;
  (* aggregate([{'$match': q}, {'$group': ...}]).to_list(1) *)
  memory_aggregate : query -> S -> result (list dict);
  (* goals.find({'user_id': u, 'status': 'active'}).to_list(10) *)
  goals_find_active : str -> S -> result (list dict);
  (* onboarding_profiles.find_one({'user_id': u}) *)
  onboarding_find_one : str -> S -> result (option dict);
  (* user_behavior_profiles.find_one({'user_id': u}) *)
  behavior_find_one : str -> S -> result (option dict);
  (* task_extractions_log *)
  log_insert_one : log_entry -> S -> S * result unit;
  log_aggregate : datetime -> option str -> S -> result (list dict);
  (* conversations.update_many({'last_message_at': {'$lt': cutoff},
     'is_active': True, 'message_count': 0}, {'$set': ...}) *)
  conversations_deactivate : datetime -> datetime -> S -> S * result Z;
  (* prompt_usage_logs.aggregate on {'timestamp': {'$gte': cutoff}} *)
  prompt_usage_aggregate : datetime -> S -> result (list dict)
}.

(** State and failure together: the state survives an exception. *)
Definition M (S A : Type) := S -> S * result A.

Definition ret {S A} (a : A) : M S A := fun s => (s, Ok a).

Definition raise {S A} (e : exn) : M S A := fun s => (s, Raise e).

Definition bindM {S A B} (c : M S A) (k : A -> M S B) : M S B :=
  fun s =>
    match c s with
    | (s', Ok a) => k a s'
    | (s', Raise e) => (s', Raise e)
    end.

Definition lift {S A} (r : result A) : M S A := fun s => (s, r).

Definition read {S A} (f : S -> result A) : M S A := fun s => (s, f s).

(** [try: body except Exception as e: handler(e)] in a stateful block. *)
Definition try_exceptM {S A} (body : M S A) (handler : exn -> M S A)
  : M S A :=
  fun s =>
    match body s with
    | (s', Ok a) => (s', Ok a)
    | (s', Raise e) => handler e s'
    end.

Notation "x <~ c1 ;; c2" := (bindM c1 (fun x => c2))
  (at level 61, c1 at next level, right associativity).

(** [d.pop(k)] as used by [del d[k]] on a present key. *)
Fixpoint ddel (k : str) (d : dict) : dict :=
  match d with
  | [] => []
  | (k', v) :: d' => if str_eqb k k' then d' else (k', v) :: ddel k d'
  end.

(** [len(v)]. *)
Definition py_len (v : pyval) : result Z :=
  match v with
  | PStr s => Ok (Z.of_nat (length s))
  | PList l => Ok (Z.of_nat (length l))
  | PDict d => Ok (Z.of_nat (length d))
  | _ => Raise (Exn TypeError (py "object has no len()"))
  end.

(** [min(a, b)] returns [a] unless [b] is smaller. *)
Definition py_min (a b : Q) : Q := if Qltb b a then b else a.

(** [l[:n]]: a negative [n] counts from the end. *)
Definition slice_to {A} (n : Z) (l : list A) : list A :=
  if (0 <=? n)%Z then firstn (Z.to_nat n) l
  else firstn (length l - Z.to_nat (- n)) l.

(** [l[-n:]] for a positive literal [n]. *)
Definition last_n {A} (n : nat) (l : list A) : list A :=
  skipn (length l - n) l.

(** [l.sort(key=..., reverse=True)] on a list decorated with its keys: the
    sort is stable, and [reverse] keeps the order of equal keys. *)
Fixpoint insert_desc {A} (x : Q * A) (l : list (Q * A)) : list (Q * A) :=
  match l with
  | [] => [x]
  | y :: l' =>
      if Qltb (fst x) (fst y) then y :: insert_desc x l' else x :: y :: l'
  end.

Fixpoint sort_desc {A} (l : list (Q * A)) : list (Q * A) :=
  match l with
  | [] => []
  | x :: l' => insert_desc x (sort_desc l')
  end.

(** The elements of a list in order, each through a step that can raise. *)
Fixpoint mapM {A B} (f : A -> result B) (l : list A) : result (list B) :=
  match l with
  | [] => Ok []
  | x :: l' => y <- f x ;; ys <- mapM f l' ;; Ok (y :: ys)
  end.

(* ================================================================== *)
(** * 5. The memory system ([memory_system.py])                        *)
(* ================================================================== *)

Definition importance_keywords : list str :=
  map py ["important"; "urgent"; "objectif"; "goal"; "décision";
          "problème"; "solution"; "projet"; "plan"; "échéance";
          "deadline"]%string.

Definition topic_keywords : list (str * list str) :=
  [(py "business",
    map py ["business"; "entreprise"; "startup"; "marketing"; "vente"]);
   (py "développement_personnel",
    map py ["développement"; "croissance"; "habitude"; "mindset"]);
   (py "santé",
    map py ["santé"; "sport"; "nutrition"; "fitness"; "bien-être"]);
   (py "éducation",
    map py ["apprendre"; "étudier"; "formation"; "compétence"; "cours"]);
   (py "technologie",
    map py ["tech"; "programmation"; "code"; "développement"; "app"]);
   (py "créativité",
    map py ["créatif"; "art"; "design"; "écriture"; "musique"]);
   (py "finances",
    map py ["argent"; "budget"; "investissement"; "épargne"; "finance"])
  ]%string.

Definition emotion_keywords : list (str * list str) :=
  [(py "positif",
    map py ["heureux"; "content"; "motivé"; "enthousiaste"; "super";
            "génial"]);
   (py "négatif",
    map py ["triste"; "déçu"; "frustré"; "difficile"; "problème";
            "inquiet"]);
   (py "neutre", map py ["normal"; "ok"; "bien"; "standard"]);
   (py "déterminé",
    map py ["déterminé"; "motivé"; "prêt"; "go"; "action"; "objectif"])
  ]%string.

(** [any(keyword in text for keyword in keywords)]. *)
Definition any_in (keywords : list str) (text : str) : bool :=
  existsb (fun k => contains k text) keywords.

(** The tags of a table whose keyword list has a member in the text. *)
Definition detect (table : list (str * list str)) (text : str) : list str :=
  map fst (filter (fun row => any_in (snd row) text) table).

(** [base_score], [length_bonus] and their capped sum. *)
Definition importance_formula (keyword_matches : Z) (len : Z) : Q :=
  let base_score := py_min (inject_Z keyword_matches * 0.2) 0.8 in
  let length_bonus := py_min (inject_Z len / 1000) 0.2 in
  py_min (base_score + length_bonus) 1.

(** The sort key of retrieval. *)
Definition blend (similarity importance : Q) : Q :=
  similarity * 0.7 + importance * 0.3.

Definition sort_key (x : memory) : result Q :=
  match similarity_score x with
  | Some s =>
      Ok (blend s (match importance_score x with
                   | Some i => i
                   | None => 0.5
                   end))
  | None => Raise (Exn KeyError (py "'similarity_score'"))
  end.

Definition sort_by_relevance (l : list memory) : result (list memory) :=
  keyed <- mapM (fun x => k <- sort_key x ;; Ok (k, x)) l ;;
  Ok (map snd (sort_desc keyed)).

Section MemorySystem.

(** Collaborators. *)
Variable lower : str -> str.                       (* str.lower *)
Variable encode : str -> result vec.               (* embedding_model.encode *)
Variable cosine_similarity : vec -> vec -> result Q.
Variable timestamp_str : datetime -> str.          (* str(t.timestamp()) *)
Variable S : Type.
Variable db : storage S.
(** [_analyze_memory_patterns] and the write of the behaviour profile. *)
Variable analyze_and_save : str -> list memory -> datetime -> M S dict.

(** The body of the [try] of [_calculate_importance_score]. *)
Definition importance_try (message response : str) : result Q :=
  let combined_text := lower (message ++ [32%N] ++ response) in
  let keyword_matches :=
    Z.of_nat
      (length (filter (fun k => contains k combined_text)
                 importance_keywords)) in
  Ok (importance_formula keyword_matches
        (Z.of_nat (length combined_text))).

Definition importance_fallback : exn -> Q := fun _ => 0.5.

Definition _calculate_importance_score (message response : str) : Q :=
  try_except (importance_try message response) importance_fallback.

Definition _extract_topics (text : str) : list str :=
  try_except (Ok (detect topic_keywords (lower text))) (fun _ => []).

Definition _detect_emotions (text : str) : list str :=
  try_except
    (Ok (match detect emotion_keywords (lower text) with
         | [] => [py "neutre"]
         | detected => detected
         end))
    (fun _ => [py "neutre"]).

(** The loop of [retrieve_relevant_memories] over the loaded documents. *)
Fixpoint score_memories (query_embedding : vec) (min_similarity : Q)
    (memories : list memory) : result (list memory) :=
  match memories with
  | [] => Ok []
  | m :: rest =>
      match embedding m with
      | None => score_memories query_embedding min_similarity rest
      | Some e =>
          similarity <- cosine_similarity query_embedding e ;;
          relevant <- score_memories query_embedding min_similarity rest ;;
          Ok (if Qle_bool min_similarity similarity
              then set_similarity m similarity :: relevant
              else relevant)
      end
  end.

Definition retrieve_try (user_id query : str) (limit : Z)
    (min_similarity : Q) (s : S) : result (list memory) :=
  query_embedding <- encode query ;;
  memories <- memory_find_recent db [UserIdEq user_id] 50 s ;;
  match memories with
  | [] => Ok []
  | _ =>
      relevant <- score_memories query_embedding min_similarity memories ;;
      sorted <- sort_by_relevance relevant ;;
      Ok (slice_to limit sorted)
  end.

Definition retrieve_relevant_memories (user_id query : str) (limit : Z)
    (min_similarity : Q) (s : S) : list memory :=
  try_except (retrieve_try user_id query limit min_similarity s)
    (fun _ => []).

(** [update_user_profile_from_memory]: the last 30 days, at most 100
    documents. *)
Definition update_user_profile_from_memory (user_id : str)
    (now : datetime) : M S dict :=
  try_exceptM
    (let cutoff_date := sub_days now 30 in
     recent_memories <~
       read (memory_find_recent db
               [UserIdEq user_id; TimestampGte cutoff_date] 100) ;;
     match recent_memories with
     | [] => ret [(py "updated", PBool false);
                  (py "reason", PStr (py "no_recent_memories"))]
     | _ => analyze_and_save user_id recent_memories now
     end)
    (fun e => ret [(py "updated", PBool false);
                   (py "error", PStr (exn_message e))]).

Definition _trigger_memory_synthesis (user_id : str) (now : datetime)
  : M S unit :=
  try_exceptM
    (message_count <~
       read (memory_count_documents db [UserIdEq user_id]) ;;
     if (0 <? message_count)%Z && (message_count mod 50 =? 0)%Z
     then _ <~ update_user_profile_from_memory user_id now ;; ret tt
     else ret tt)
    (fun _ => ret tt).

(** The document that [store_conversation_memory] inserts; the clock is
    read once for the identifier and once for the timestamp. *)
Definition memory_entry (user_id conversation_id message response
    message_type : str) (embedding : vec) (t_id t_stamp : datetime)
  : memory :=
  let combined_text := message ++ [32%N] ++ response in
  Memory (conversation_id ++ [95%N] ++ timestamp_str t_id)
    user_id conversation_id message response message_type
    (Some embedding) t_stamp
    (Some (_calculate_importance_score message response))
    (_extract_topics combined_text)
    (_detect_emotions message)
    None.

Definition store_conversation_memory (user_id conversation_id message
    response message_type : str) (t_id t_stamp : datetime) : M S bool :=
  try_exceptM
    (let combined_text := message ++ [32%N] ++ response in
     embedding <~ lift (encode combined_text) ;;
     _ <~ memory_insert_one db
            (memory_entry user_id conversation_id message response
               message_type embedding t_id t_stamp) ;;
     _ <~ _trigger_memory_synthesis user_id t_stamp ;;
     ret true)
    (fun _ => ret false).



(** [get_memory_analytics]. *)
Definition analytics_query (user_id : option str) (days : Z)
    (now : datetime) : query :=
  let cutoff_date := sub_days now days in
  TimestampGte cutoff_date ::
  match user_id with
  | Some (c :: u) => [UserIdEq (c :: u)]
  | _ => []
  end.

Definition count_and_drop (counted key : str) (stats : dict)
  : result dict :=
  v <- getitem key stats ;;
  n <- py_len v ;;
  Ok (dset counted (PNum (inject_Z n)) stats).

Definition get_memory_analytics (user_id : option str) (days : Z)
    (now : datetime) (s : S) : dict :=
  try_except
    (result <- memory_aggregate db (analytics_query user_id days now) s ;;
     match result with
     | stats :: _ =>
         stats <- count_and_drop (py "unique_users_count")
                    (py "unique_users") stats ;;
         stats <- count_and_drop (py "unique_conversations_count")
                    (py "unique_conversations") stats ;;
         Ok (ddel (py "unique_conversations")
               (ddel (py "unique_users") stats))
     | [] =>
         Ok [(py "total_memories", PNum 0);
             (py "avg_importance", PNum 0);
             (py "unique_users_count", PNum 0);
             (py "unique_conversations_count", PNum 0)]
     end)
    (fun _ => []).

End MemorySystem.

(* ================================================================== *)
(** * 6. The task extractor ([task_extractor.py])                      *)
(* ================================================================== *)

Definition action_verbs : list str :=
  map py ["faire"; "créer"; "développer"; "apprendre"; "étudier"; "lire";
          "écrire"; "planifier"; "organiser"; "préparer"; "rechercher";
          "analyser"; "contacter"; "appeler"; "envoyer"; "acheter";
          "vendre"; "terminer"; "finir"; "commencer"; "démarrer";
          "installer"; "configurer"; "tester"; "vérifier"; "réviser"]%string.

Definition priority_indicators : list (str * list str) :=
  [(py "haute",
    map py ["urgent"; "important"; "priorité"; "critique"; "immédiat";
            "crucial"]);
   (py "moyenne", map py ["normal"; "standard"; "moyen"; "régulier"]);
   (py "basse",
    map py ["quand possible"; "si temps"; "optionnel"; "bonus";
            "plus tard"])]%string.

Definition filler_prefixes : list str :=
  map py ["je vais"; "je dois"; "il faut"; "je veux"]%string.

Definition days_map : list (str * Z) :=
  [(py "lundi", 0); (py "mardi", 1); (py "mercredi", 2); (py "jeudi", 3);
   (py "vendredi", 4); (py "samedi", 5); (py "dimanche", 6)]%Z.

(** The first entry of a table whose name occurs in the sentence. *)
Fixpoint first_named {A} (table : list (str * A)) (sentence : str)
  : option A :=
  match table with
  | [] => None
  | (name, a) :: table' =>
      if contains name sentence then Some a else first_named table' sentence
  end.

Definition days_ahead (day_num : Z) (today : datetime) : Z :=
  let d := (day_num - weekday today)%Z in
  if (d <=? 0)%Z then (d + 7)%Z else d.

(** [_extract_date_from_sentence], with the clock as a parameter. *)
Definition _extract_date_from_sentence (sentence : str) (today : datetime)
  : option str :=
  try_except
    (if contains (py "aujourd'hui") sentence
     then Ok (Some (strftime_ymd today))
     else if contains (py "demain") sentence
     then Ok (Some (strftime_ymd (add_days today 1)))
     else if contains (py "cette semaine") sentence
     then Ok (Some (strftime_ymd (add_days today 3)))
     else if contains (py "la semaine prochaine") sentence
     then Ok (Some (strftime_ymd (add_days today 7)))
     else if contains (py "ce mois") sentence
     then Ok (Some (strftime_ymd (add_days today 15)))
     else
       match first_named days_map sentence with
       | Some day_num =>
           Ok (Some (strftime_ymd (add_days today (days_ahead day_num today))))
       | None => Ok None
       end)
    (fun _ => None).

(** The first verb of the list that occurs in the sentence. *)
Fixpoint first_in (words : list str) (sentence : str) : option str :=
  match words with
  | [] => None
  | w :: words' =>
      if contains w sentence then Some w else first_in words' sentence
  end.

(** The first priority whose indicator list has a member in the sentence. *)
Fixpoint first_priority (table : list (str * list str)) (sentence : str)
  : option str :=
  match table with
  | [] => None
  | (prio, indicators) :: table' =>
      if any_in indicators sentence then Some prio
      else first_priority table' sentence
  end.

Definition opt_str (o : option str) : pyval :=
  match o with Some s => PStr s | None => PNone end.

(** [sum] over numbers; [bool] is a number. *)
Definition as_num (v : pyval) : result Q :=
  match v with
  | PNum q => Ok q
  | PBool true => Ok 1
  | PBool false => Ok 0
  | _ => Raise (Exn TypeError (py "unsupported operand type(s) for +"))
  end.

Fixpoint sum_confidence (tasks : list dict) (acc : Q) : result Q :=
  match tasks with
  | [] => Ok acc
  | task :: rest =>
      c <- as_num (dget_default (py "confidence") (PNum 0.5) task) ;;
      sum_confidence rest (acc + c)
  end.

(** [_calculate_confidence]. *)
Definition _calculate_confidence (tasks : list dict) : Q :=
  try_except
    (match tasks with
     | [] => Ok 0
     | _ =>
         total_confidence <- sum_confidence tasks 0 ;;
         Ok (py_min (total_confidence / inject_Z (Z.of_nat (length tasks))) 1)
     end)
    (fun _ => 0.5).

(** The task objects of a merge: the model tasks, then the rule tasks.
    The lists of the program hold references into this store, so that a
    change made through [merged] is seen through the argument lists. *)
Definition store := list dict.

Definition deref (h : store) (r : nat) : dict := nth r h [].

Fixpoint update (h : store) (r : nat) (d : dict) : store :=
  match h, r with
  | [], _ => []
  | _ :: h', O => d :: h'
  | x :: h', S r' => x :: update h' r' d
  end.

(** The result of [extract_tasks_from_message]. *)
Record extraction := Extraction {
  tasks_found : list dict;
  extraction_method : str;
  confidence_score : Q;
  processed_at : option datetime;
  error : option str
}.

(** Double quotes of the prompt are written [~] in the literals below. *)
Definition pyq (s : string) : str :=
  map (fun c => if (c =? 126)%N then 34%N else c) (py s).

Definition prompt_head : str :=
  pyq "Analyse le message suivant et identifie toutes les tâches, actions ou objectifs mentionnés.

Message à analyser : ~".

Definition prompt_middle : str :=
  pyq "~

Contexte de conversation récent :
".

Definition prompt_tail : str :=
  pyq "

Instructions :
1. Identifie chaque tâche/action concrète
2. Ignore les questions ou commentaires généraux
3. Estime une priorité (haute/moyenne/basse)
4. Propose une date d'échéance si des indices temporels existent

Réponds uniquement en JSON valide :
{
    ~tasks~: [
        {
            ~title~: ~titre court de la tâche~,
            ~description~: ~description plus détaillée~,
            ~priority~: ~haute|moyenne|basse~,
            ~estimated_date~: ~YYYY-MM-DD ou null~,
            ~confidence~: 0.85
        }
    ]
}".

(** ["\n".join(lines)]. *)
Fixpoint join_lines (lines : list str) : str :=
  match lines with
  | [] => []
  | [l] => l
  | l :: rest => l ++ [10%N] ++ join_lines rest
  end.

Section TaskExtractor.

(** Collaborators. *)
Variable lower : str -> str.                 (* str.lower *)
Variable capitalize : str -> str.            (* str.capitalize *)
Variable py_repr : pyval -> str.             (* format() of a non-string *)
(** The completion service, from the prompt to the text of the first
    choice; the JSON parser. *)
Variable chat_completion : str -> result str.
Variable json_loads : str -> result pyval.
Variable S : Type.
Variable db : storage S.

(** [_parse_task_from_sentence]. *)
Definition _parse_task_from_sentence (sentence action_verb : str)
    (today : datetime) : option dict :=
  try_except
    (let title := strip (replace action_verb [] sentence) in
     let title := strip (re_sub_prefix filler_prefixes title) in
     if (length title <? 3)%nat then Ok None
     else
       let priority :=
         match first_priority priority_indicators sentence with
         | Some prio => prio
         | None => py "moyenne"
         end in
       let estimated_date := _extract_date_from_sentence sentence today in
       Ok (Some [(py "title", PStr (capitalize title));
                 (py "description", PStr sentence);
                 (py "priority", PStr priority);
                 (py "estimated_date", opt_str estimated_date);
                 (py "extraction_method", PStr (py "rules"));
                 (py "confidence", PNum 0.7)]))
    (fun _ => None).

(** The loop of [_extract_by_rules] over the sentences. *)
Fixpoint rule_tasks_of (sentences : list str) (today : datetime)
  : list dict :=
  match sentences with
  | [] => []
  | sentence :: rest =>
      let sentence := strip sentence in
      if (length sentence <? 5)%nat then rule_tasks_of rest today
      else
        match first_in action_verbs sentence with
        | None => rule_tasks_of rest today
        | Some action_found =>
            match _parse_task_from_sentence sentence action_found today with
            | Some task => task :: rule_tasks_of rest today
            | None => rule_tasks_of rest today
            end
        end
  end.

Definition _extract_by_rules (message : str) (today : datetime)
  : list dict :=
  try_except
    (let message_clean := strip (lower message) in
     Ok (rule_tasks_of (re_split_sentences message_clean) today))
    (fun _ => []).

(** A line of the context: who spoke and what. *)
Definition format_val (v : pyval) : str :=
  match v with PStr s => s | _ => py_repr v end.

Definition context_line (msg : dict) : str :=
  (if truthy_opt (dget (py "is_user") msg)
   then py "Utilisateur" else py "Assistant")
  ++ py ": " ++ format_val (dget_default (py "content") (PStr []) msg).

Definition build_prompt (message : str) (conversation_context : list dict)
  : str :=
  let context_text :=
    match conversation_context with
    | [] => []
    | _ => join_lines (map context_line (last_n 5 conversation_context))
    end in
  prompt_head ++ message ++ prompt_middle ++ context_text ++ prompt_tail.

(** [for task in tasks: task['extraction_method'] = 'ai'].  An empty
    string or an empty object iterates like the empty list. *)
Definition tag_ai (task : pyval) : result dict :=
  match task with
  | PDict d => Ok (dset (py "extraction_method") (PStr (py "ai")) d)
  | _ => Raise (Exn TypeError (py "object does not support item assignment"))
  end.

Definition tag_tasks (tasks : pyval) : result (list dict) :=
  match tasks with
  | PList l => mapM tag_ai l
  | PStr [] => Ok []
  | PDict [] => Ok []
  | PStr (c :: _) => _ <- tag_ai (PStr [c]) ;; Ok []
  | PDict ((k, _) :: _) => _ <- tag_ai (PStr k) ;; Ok []
  | _ => Raise (Exn TypeError (py "object is not iterable"))
  end.

(** [_extract_by_ai]. *)
Definition parse_ai_tasks (text : str) : result (list dict) :=
  match json_loads text with
  | Ok parsed =>
      tasks <- match parsed with
               | PDict d => Ok (dget_default (py "tasks") (PList []) d)
               | _ => Raise (Exn AttributeError
                               (py "object has no attribute 'get'"))
               end ;;
      tag_tasks tasks
  | Raise e =>
      match exn_kind e with
      | JSONDecodeError => Ok []
      | _ => Raise e
      end
  end.

Definition _extract_by_ai (message : str) (conversation_context : list dict)
  : list dict :=
  try_except
    (content <- chat_completion (build_prompt message conversation_context) ;;
     parse_ai_tasks (strip content))
    (fun _ => []).

(** [_are_tasks_similar]. *)
Definition _are_tasks_similar (title1 title2 : pyval) : bool :=
  try_except
    (s1 <- as_str title1 ;;
     let t1 := to_set (split (lower s1)) in
     s2 <- as_str title2 ;;
     let t2 := to_set (split (lower s2)) in
     match t1, t2 with
     | [], _ | _, [] => Ok false
     | _, _ =>
         let intersection := Z.of_nat (length (intersection t1 t2)) in
         let union := Z.of_nat (length (union t1 t2)) in
         Ok (Qltb 0.5 (inject_Z intersection / inject_Z union))
     end)
    (fun _ => false).

(** The inner loop of [_merge_task_extractions]: the merged tasks are
    scanned in order; the first similar one ends the scan, after the
    back-fill of its date.  The result is the store and [is_duplicate]. *)
Fixpoint scan_merged (h : store) (rule_ref : nat) (merged : list nat)
  : result (store * bool) :=
  match merged with
  | [] => Ok (h, false)
  | m :: rest =>
      let rule_task := deref h rule_ref in
      let merged_task := deref h m in
      t1 <- getitem (py "title") rule_task ;;
      t2 <- getitem (py "title") merged_task ;;
      if _are_tasks_similar t1 t2
      then
        if negb (truthy_opt (dget (py "estimated_date") merged_task))
           && truthy_opt (dget (py "estimated_date") rule_task)
        then
          d <- getitem (py "estimated_date") rule_task ;;
          Ok (update h m (dset (py "estimated_date") d merged_task), true)
        else Ok (h, true)
      else scan_merged h rule_ref rest
  end.

(** The outer loop: the store when the loop ends or raises, and the
    references of [merged]. *)
Fixpoint merge_loop (h : store) (merged : list nat) (rule_refs : list nat)
  : store * result (list nat) :=
  match rule_refs with
  | [] => (h, Ok merged)
  | r :: rest =>
      match scan_merged h r merged with
      | Raise e => (h, Raise e)
      | Ok (h', true) => merge_loop h' merged rest
      | Ok (h', false) => merge_loop h' (merged ++ [r]) rest
      end
  end.

(** [_merge_task_extractions]: the two argument lists hold distinct
    objects. *)
Definition _merge_task_extractions (rule_tasks ai_tasks : list dict)
  : list dict :=
  let h0 : store := ai_tasks ++ rule_tasks in
  let ai_refs := seq 0 (length ai_tasks) in
  let rule_refs := seq (length ai_tasks) (length rule_tasks) in
  match merge_loop h0 ai_refs rule_refs with
  | (h, Ok merged) => map (deref h) merged
  | (h, Raise _) => map (deref h) (rule_refs ++ ai_refs)
  end.

(** The words of a text field. *)
Definition words_of (v : pyval) : result (list str) :=
  s <- as_str v ;; Ok (to_set (split (lower s))).

(** The loop of [_find_related_goal] over the goals. *)
Fixpoint best_goal (all_task_words : list str) (user_goals : list dict)
    (best_match : option dict) (best_score : Q) : result (option dict) :=
  match user_goals with
  | [] => Ok best_match
  | goal :: rest =>
      t <- getitem (py "title") goal ;;
      goal_words <- words_of t ;;
      goal_desc_words <-
        words_of (dget_default (py "description") (PStr []) goal) ;;
      let all_goal_words := to_set (goal_words ++ goal_desc_words) in
      let intersection :=
        Z.of_nat (length (intersection all_task_words all_goal_words)) in
      let union :=
        Z.of_nat (length (union all_task_words all_goal_words)) in
      if (0 <? union)%Z
      then
        let score := inject_Z intersection / inject_Z union in
        if Qltb best_score score && Qltb 0.3 score
        then best_goal all_task_words rest (Some goal) score
        else best_goal all_task_words rest best_match best_score
      else best_goal all_task_words rest best_match best_score
  end.

Definition _find_related_goal (task : dict) (user_goals : list dict)
  : option dict :=
  try_except
    (t <- getitem (py "title") task ;;
     task_words <- words_of t ;;
     task_desc_words <-
       words_of (dget_default (py "description") (PStr []) task) ;;
     let all_task_words := to_set (task_words ++ task_desc_words) in
     best_goal all_task_words user_goals None 0)
    (fun _ => None).

(** [_adjust_priority_by_profile]. *)
Definition _adjust_priority_by_profile (task : dict) (user_id : str)
    (s : S) : dict :=
  try_except
    (behavior_profile <- behavior_find_one db user_id s ;;
     match behavior_profile with
     | None | Some [] => Ok task
     | Some profile =>
         let procrastination :=
           dget_default (py "procrastination_tendency")
             (PStr (py "medium")) profile in
         if is_str procrastination (py "high")
         then
           p <- getitem (py "priority") task ;;
           if is_str p (py "basse")
           then Ok (dset (py "priority") (PStr (py "moyenne")) task)
           else if is_str p (py "moyenne")
           then Ok (dset (py "priority") (PStr (py "haute")) task)
           else Ok task
         else Ok task
     end)
    (fun _ => task).

(** One turn of the loop of [_enrich_tasks_with_context]: the task object
    after the turn, and whether the turn raised. *)
Definition enrich_one (user_goals : list dict) (user_profile : option dict)
    (user_id : str) (s : S) (task : dict) : dict * result unit :=
  let linked :=
    match _find_related_goal task user_goals with
    | Some (f :: g) =>
        let related_goal := f :: g in
        match getitem (py "id") related_goal with
        | Raise e => (task, Raise e)
        | Ok i =>
            let task := dset (py "related_goal_id") i task in
            match getitem (py "title") related_goal with
            | Raise e => (task, Raise e)
            | Ok t => (dset (py "related_goal_title") t task, Ok tt)
            end
        end
    | _ => (task, Ok tt)
    end in
  match linked with
  | (task, Raise e) => (task, Raise e)
  | (task, Ok _) =>
      let task :=
        match user_profile with
        | Some (f :: p) =>
            dset (py "category")
              (dget_default (py "domain") (PStr (py "général")) (f :: p))
              task
        | _ => task
        end in
      (_adjust_priority_by_profile task user_id s, Ok tt)
  end.

Fixpoint enrich_loop (user_goals : list dict) (user_profile : option dict)
    (user_id : str) (s : S) (tasks : list dict)
  : list dict * result unit :=
  match tasks with
  | [] => ([], Ok tt)
  | task :: rest =>
      match enrich_one user_goals user_profile user_id s task with
      | (task', Raise e) => (task' :: rest, Raise e)
      | (task', Ok _) =>
          let (rest', r) :=
            enrich_loop user_goals user_profile user_id s rest in
          (task' :: rest', r)
      end
  end.

(** [_enrich_tasks_with_context]: the tasks are changed in place, so the
    list returned after an exception holds the changes made before it. *)
Definition _enrich_tasks_with_context (tasks : list dict) (user_id : str)
    (s : S) : list dict :=
  match goals_find_active db user_id s with
  | Raise _ => tasks
  | Ok user_goals =>
      match onboarding_find_one db user_id s with
      | Raise _ => tasks
      | Ok user_profile =>
          fst (enrich_loop user_goals user_profile user_id s tasks)
      end
  end.

(** [_log_extraction]. *)
Definition _log_extraction (user_id conversation_id message : str)
    (tasks : list dict) (now : datetime) : M S unit :=
  try_exceptM
    (log_insert_one db
       (LogEntry user_id conversation_id message
          (Z.of_nat (length tasks)) (_calculate_confidence tasks) now
          tasks))
    (fun _ => ret tt).

Definition error_result (e : exn) : extraction :=
  Extraction [] (py "error") 0 None (Some (exn_message e)).

Section Pipeline.

(** The six methods that [extract_tasks_from_message] calls. *)
Variable by_rules : str -> M S (list dict).
Variable by_ai : str -> list dict -> M S (list dict).
Variable merge : list dict -> list dict -> M S (list dict).
Variable enrich : list dict -> str -> M S (list dict).
Variable log : str -> str -> str -> list dict -> M S unit.
Variable confidence : list dict -> M S Q.

(** The body of the [try]. *)
Definition extract_try (message user_id conversation_id : str)
    (conversation_context : option (list dict)) (now : datetime)
  : M S extraction :=
  rule_based_tasks <~ by_rules message ;;
  ai_based_tasks <~
    by_ai message (match conversation_context with
                   | Some (m :: c) => m :: c
                   | _ => []
                   end) ;;
  merged_tasks <~ merge rule_based_tasks ai_based_tasks ;;
  enriched_tasks <~ enrich merged_tasks user_id ;;
  _ <~ log user_id conversation_id message enriched_tasks ;;
  c <~ confidence enriched_tasks ;;
  ret (Extraction enriched_tasks (py "hybrid") c (Some now) None).

Definition extract_pipeline (message user_id conversation_id : str)
    (conversation_context : option (list dict)) (now : datetime)
  : M S extraction :=
  try_exceptM
    (extract_try message user_id conversation_id conversation_context
       now)
    (fun e => ret (error_result e)).

End Pipeline.

(** [extract_tasks_from_message]: [today] is the clock of the rule pass,
    [t_log] that of the log entry and [now] that of the result. *)
Definition extract_tasks_from_message (message user_id conversation_id : str)
    (conversation_context : option (list dict))
    (today t_log now : datetime) : M S extraction :=
  extract_pipeline
    (fun message => ret (_extract_by_rules message today))
    (fun message context => ret (_extract_by_ai message context))
    (fun rule_tasks ai_tasks =>
       ret (_merge_task_extractions rule_tasks ai_tasks))
    (fun tasks user_id => read (fun s =>
       Ok (_enrich_tasks_with_context tasks user_id s)))
    (fun user_id conversation_id message tasks =>
       _log_extraction user_id conversation_id message tasks t_log)
    (fun tasks => ret (_calculate_confidence tasks))
    message user_id conversation_id conversation_context now.



(* ---------------------------------------------------------------- *)
(** ** The cut-offs of [conversation_manager.py] and
       [ai_prompt_system.py]                                         *)
(* ---------------------------------------------------------------- *)





End TaskExtractor.

(* ================================================================== *)
(** * 7. A document store held in memory                               *)
(* ================================================================== *)

(** The collections as lists, with the semantics of the store's
    operations: a query selects the documents that match each of its
    clauses, [delete_many] removes them and counts them, and no operation
    fails. *)
Record collections := Collections {
  conversation_memory : list memory;
  goals : list dict;
  onboarding_profiles : list dict;
  user_behavior_profiles : list dict;
  task_extractions_log : list log_entry;
  conversations : list conversation
}.

Definition with_memory (s : collections) (l : list memory) : collections :=
  Collections l (goals s) (onboarding_profiles s) (user_behavior_profiles s)
    (task_extractions_log s) (conversations s).

Definition with_log (s : collections) (l : list log_entry) : collections :=
  Collections (conversation_memory s) (goals s) (onboarding_profiles s)
    (user_behavior_profiles s) l (conversations s).

Definition with_conversations (s : collections) (l : list conversation)
  : collections :=
  Collections (conversation_memory s) (goals s) (onboarding_profiles s)
    (user_behavior_profiles s) (task_extractions_log s) l.

(** [sort('timestamp', -1)]. *)
Fixpoint insert_recent (m : memory) (l : list memory) : list memory :=
  match l with
  | [] => [m]
  | y :: l' =>
      if dt_ltb (timestamp m) (timestamp y) then y :: insert_recent m l'
      else m :: y :: l'
  end.

Fixpoint sort_recent (l : list memory) : list memory :=
  match l with
  | [] => []
  | m :: l' => insert_recent m (sort_recent l')
  end.

Definition select (q : query) (s : collections) : list memory :=
  filter (query_matches q) (conversation_memory s).

Definition field_is (k v : str) (d : dict) : bool :=
  match dget k d with Some x => is_str x v | None => false end.

Definition sum_importance (l : list memory) : Q * Z :=
  fold_left
    (fun acc m =>
       match importance_score m with
       | Some i => (fst acc + i, (snd acc + 1)%Z)
       | None => acc
       end)
    l (0, 0%Z).

Definition memory_stats (l : list memory) : dict :=
  let (total, n) := sum_importance l in
  [(py "_id", PNone);
   (py "total_memories", PNum (inject_Z (Z.of_nat (length l))));
   (py "avg_importance",
    if (n =? 0)%Z then PNone else PNum (total / inject_Z n));
   (py "unique_users",
    PList (map PStr (to_set (map mem_user_id l))));
   (py "unique_conversations",
    PList (map PStr (to_set (map mem_conversation_id l))))].

Definition log_selected (cutoff : datetime) (user_id : option str)
    (s : collections) : list log_entry :=
  filter
    (fun e =>
       dt_geb (log_timestamp e) cutoff
       && match user_id with
          | Some u => str_eqb (log_user_id e) u
          | None => true
          end)
    (task_extractions_log s).

Definition log_stats (l : list log_entry) : dict :=
  [(py "_id", PNone);
   (py "total_extractions", PNum (inject_Z (Z.of_nat (length l))));
   (py "total_tasks_found",
    PNum (inject_Z (fold_left (fun a e => (a + tasks_extracted e)%Z) l 0%Z)));
   (py "avg_confidence",
    PNum (fold_left (fun a e => a + extraction_confidence e) l 0
          / inject_Z (Z.of_nat (length l))));
   (py "unique_users", PList (map PStr (to_set (map log_user_id l))))].

Definition is_inactive (cutoff : datetime) (c : conversation) : bool :=
  dt_ltb (last_message_at c) cutoff && is_active c
  && (message_count c =? 0)%Z.

Definition deactivate (cutoff now : datetime) (c : conversation)
  : conversation :=
  if is_inactive cutoff c
  then Conversation (last_message_at c) false (message_count c)
         (Some (py "inactive_threshold")) now
  else c.

Definition list_store : storage collections :=
  Storage
    (fun m s => (with_memory s (conversation_memory s ++ [m]), Ok tt))
    (fun q n s => Ok (firstn n (sort_recent (select q s))))
    (fun q s => Ok (Z.of_nat (length (select q s))))
    (fun q s =>
       (with_memory s
          (filter (fun m => negb (query_matches q m)) (conversation_memory s)),
        Ok (Z.of_nat (length (select q s)))))
    (fun q s =>
       match select q s with
       | [] => Ok []
       | l => Ok [memory_stats l]
       end)
    (fun u s =>
       Ok (firstn 10
             (filter (fun g => field_is (py "user_id") u g
                               && field_is (py "status") (py "active") g)
                (goals s))))
    (fun u s => Ok (find (field_is (py "user_id") u) (onboarding_profiles s)))
    (fun u s =>
       Ok (find (field_is (py "user_id") u) (user_behavior_profiles s)))
    (fun e s => (with_log s (task_extractions_log s ++ [e]), Ok tt))
    (fun cutoff u s =>
       match log_selected cutoff u s with
       | [] => Ok []
       | l => Ok [log_stats l]
       end)
    (fun cutoff now s =>
       (with_conversations s (map (deactivate cutoff now) (conversations s)),
        Ok (Z.of_nat (length (filter (is_inactive cutoff) (conversations s))))))
    (fun _ _ => Ok []).

(** A store that is out of reach: every operation raises. *)
Definition unreachable : exn := Exn OtherError (py "connection refused").


Definition empty_db : collections := Collections [] [] [] [] [] [].

(* ================================================================== *)
(** * 8. Collaborators for the examples                                *)
(* ================================================================== *)

(** [str.lower] and [str.capitalize] on the letters A to Z; the other code
    points are kept. *)
Definition lower_char (c : char) : char :=
  if ((65 <=? c) && (c <=? 90))%N then (c + 32)%N else c.

Definition upper_char (c : char) : char :=
  if ((97 <=? c) && (c <=? 122))%N then (c - 32)%N else c.

Definition ascii_lower (s : str) : str := map lower_char s.

Definition ascii_capitalize (s : str) : str :=
  match s with
  | [] => []
  | c :: rest => upper_char c :: ascii_lower rest
  end.

Definition plain_repr (v : pyval) : str :=
  match v with
  | PNone => py "None"
  | PBool true => py "True"
  | PBool false => py "False"
  | _ => py "..."
  end.

Fixpoint dot (a b : vec) : Q :=
  match a, b with
  | x :: a', y :: b' => x * y + dot a' b'
  | _, _ => 0
  end.

(** The cosine of two unit vectors is their dot product; vectors of
    different lengths are refused. *)
Definition unit_cosine (a b : vec) : result Q :=
  if (length a =? length b)%nat then Ok (dot a b)
  else Raise (Exn ValueError (py "Incompatible dimension for X and Y matrices")).

(** An embedding model with two directions: the texts that mention milk and
    the others. *)
Definition toy_encode (text : str) : result vec :=
  if contains (py "milk") text then Ok [1; 0] else Ok [0; 1].

Definition failing_encode (text : str) : result vec :=
  Raise (Exn OtherError (py "model not loaded")).

Definition no_timestamp_str (t : datetime) : str := pad4 (ordinal t).



(** The importance that ranks a document: its field, or the default. *)
Definition importance_or (default : Q) (m : memory) : Q :=
  match importance_score m with Some i => i | None => default end.

(** [a] is ranked at least as high as [b]: both carry a similarity, and
    [0.7 * similarity + 0.3 * importance] of [a] is at least that of [b]. *)
Definition ranked_before (a b : memory) : Prop :=
  exists sa sb,
    similarity_score a = Some sa /\ similarity_score b = Some sb
    /\ 0.7 * sb + 0.3 * importance_or 0.5 b
       <= 0.7 * sa + 0.3 * importance_or 0.5 a.

Definition has_embedding (m : memory) : bool :=
  match embedding m with Some _ => true | None => false end.

(** Documents of one user for the examples. *)
Definition sample_memory (id : str) (e : option vec) (importance : option Q)
    (t : datetime) : memory :=
  Memory id (py "u1") (py "c1") (py "buy milk") (py "ok") (py "user")
    e t importance [] [py "neutre"] None.

Definition sample_now : datetime := mk_date 2024 3 5.

Definition sample_db : collections :=
  with_memory empty_db
    [sample_memory (py "m1") (Some [1; 0]) (Some 0.4) (sub_days sample_now 100);
     sample_memory (py "m2") (Some [1; 0]) (Some 0.8) (sub_days sample_now 100);
     sample_memory (py "m3") None (Some 0.9) (sub_days sample_now 2);
     sample_memory (py "m4") (Some [0.6; 0.8]) None (sub_days sample_now 1);
     sample_memory (py "m5") (Some [0; 1]) (Some 1) sample_now].

Definition map_result {A B} (f : A -> B) (r : result A) : result B :=
  match r with Ok a => Ok (f a) | Raise e => Raise e end.

(** The sample store with the missing importance written as 0.5. *)
Definition sample_db_filled : collections :=
  with_memory sample_db
    (map (default_importance 0.5) (conversation_memory sample_db)).



(** A store with another answer to [count_documents]. *)
Definition with_count {S} (db : storage S)
    (count : query -> S -> result Z) : storage S :=
  Storage (memory_insert_one db) (memory_find_recent db) count
    (memory_delete_many db) (memory_aggregate db) (goals_find_active db)
    (onboarding_find_one db) (behavior_find_one db) (log_insert_one db)
    (log_aggregate db) (conversations_deactivate db)
    (prompt_usage_aggregate db).


(** A profile analysis that fails. *)
Definition failing_analysis (user_id : str) (memories : list memory)
    (now : datetime) : M collections dict :=
  raise (Exn KeyError (py "'communication_style'")).

(** ** The merge step in the words of the specification *)

(** The token set of a title: lower-cased, split at white space. *)
Definition title_tokens (lower : str -> str) (title : str) : list str :=
  to_set (split (lower title)).

(** Size of the intersection over size of the union. *)
Definition jaccard (a b : list str) : Q :=
  inject_Z (Z.of_nat (length (intersection a b)))
  / inject_Z (Z.of_nat (length (union a b))).

(** Two titles are duplicates when the similarity of their token sets
    strictly exceeds 0.5. *)
Definition titles_similar (lower : str -> str) (t1 t2 : pyval) : bool :=
  match t1, t2 with
  | PStr a, PStr b =>
      Qltb 0.5 (jaccard (title_tokens lower a) (title_tokens lower b))
  | _, _ => false
  end.

Definition title_of (task : dict) : pyval :=
  dget_default (py "title") PNone task.

Definition has_title (task : dict) : Prop :=
  exists v, dget (py "title") task = Some v.

Definition has_date (task : dict) : bool :=
  truthy_opt (dget (py "estimated_date") task).

(** The duplicate takes the date of the rule task when it has none. *)
Definition backfill (rule_task merged_task : dict) : dict :=
  if negb (has_date merged_task) && has_date rule_task
  then dset (py "estimated_date")
         (dget_default (py "estimated_date") PNone rule_task) merged_task
  else merged_task.

(** The first merged task that the rule task duplicates, back-filled; no
    answer when there is none. *)
Fixpoint absorb (lower : str -> str) (rule_task : dict) (merged : list dict)
  : option (list dict) :=
  match merged with
  | [] => None
  | m :: rest =>
      if titles_similar lower (title_of rule_task) (title_of m)
      then Some (backfill rule_task m :: rest)
      else option_map (cons m) (absorb lower rule_task rest)
  end.

Definition merge_step (lower : str -> str) (merged : list dict)
    (rule_task : dict) : list dict :=
  match absorb lower rule_task merged with
  | Some merged' => merged'
  | None => merged ++ [rule_task]
  end.

(** Model tasks first, then the rule tasks one by one. *)
Definition merge_spec (lower : str -> str) (rule_tasks ai_tasks : list dict)
  : list dict :=
  fold_left (merge_step lower) rule_tasks ai_tasks.

(** [b] is [a], but for its date. *)
Definition same_but_date (a b : dict) : Prop :=
  b = a \/ exists v, b = dset (py "estimated_date") v a.

(** [b] has the fields of [a], but for the keys listed. *)
Definition agree_except (keys : list str) (a b : dict) : Prop :=
  forall k, mem k keys = false -> dget k b = dget k a.

(** The keys that merge and enrichment may write on a task. *)
Definition enrichment_keys : list str :=
  map py ["estimated_date"; "related_goal_id"; "related_goal_title";
          "category"; "priority"]%string.

(** A task as the rule pass builds it. *)
Definition rule_shaped (t : dict) : Prop :=
  exists title description priority date,
    t = [(py "title", PStr title); (py "description", PStr description);
         (py "priority", PStr priority); (py "estimated_date", date);
         (py "extraction_method", PStr (py "rules"));
         (py "confidence", PNum 0.7)].

(** A task that comes from a task of the rule pass: the same title,
    description, method and confidence. *)
Definition rule_derived (rules : list dict) (t : dict) : Prop :=
  exists r, In r rules /\ rule_shaped r /\ agree_except enrichment_keys r t.

(** Steps for the examples: a merge that fails, the others empty. *)
Definition no_tasks : str -> M collections (list dict) := fun _ => ret [].

Definition failing_merge : list dict -> list dict -> M collections (list dict) :=
  fun _ _ => raise (Exn TypeError (py "unhashable type: 'list'")).

(** A completion service that answers with prose, and a parser that
    refuses what does not start with a brace. *)
Definition prose_completion (prompt : str) : result str :=
  Ok (py "Voici les tâches que je vois : appeler le client.").

Definition toy_json_loads (text : str) : result pyval :=
  match text with
  | 123%N :: _ => Ok (PDict [])
  | _ => Raise (Exn JSONDecodeError (py "Expecting value: line 1 column 1 (char 0)"))
  end.

Unset Implicit Arguments.

(* ================================================================== *)
(** * 9. Lemmas on the base definitions                                *)
(* ================================================================== *)

Lemma str_eqb_eq (a b : str) : str_eqb a b = true <-> a = b.
Proof.
  revert b; induction a as [|x a IH]; destruct b as [|y b]; simpl;
    try (split; congruence).
  rewrite andb_true_iff, N.eqb_eq, IH. split.
  - intros [-> ->]; reflexivity.
  - intros E; injection E; auto.
Qed.

Lemma str_eqb_refl (a : str) : str_eqb a a = true.
Proof. apply str_eqb_eq; reflexivity. Qed.

Lemma str_eqb_neq (a b : str) : str_eqb a b = false <-> a <> b.
Proof.
  rewrite <- str_eqb_eq. destruct (str_eqb a b); split; congruence.
Qed.

Lemma Qltb_lt (a b : Q) : Qltb a b = true <-> a < b.
Proof.
  unfold Qltb. rewrite negb_true_iff. split.
  - intros H. apply Qnot_le_lt. intros L.
    apply Qle_bool_iff in L. congruence.
  - intros H. destruct (Qle_bool b a) eqn:E; [|reflexivity].
    apply Qle_bool_iff in E. exfalso. apply (Qlt_not_le _ _ H E).
Qed.

Lemma Qltb_ge (a b : Q) : Qltb a b = false <-> b <= a.
Proof.
  unfold Qltb. rewrite negb_false_iff. apply Qle_bool_iff.
Qed.

(** [min] of the program against [Qmin] of the library. *)
Lemma py_min_Qmin (a b : Q) : py_min a b == Qmin a b.
Proof.
  unfold py_min. destruct (Qltb b a) eqn:E.
  - apply Qltb_lt in E. symmetry. apply Q.min_r. apply Qlt_le_weak, E.
  - apply Qltb_ge in E. symmetry. apply Q.min_l, E.
Qed.

Lemma py_min_le_r (a b : Q) : py_min a b <= b.
Proof. rewrite py_min_Qmin. apply Q.le_min_r. Qed.

Lemma py_min_glb (a b c : Q) : c <= a -> c <= b -> c <= py_min a b.
Proof. intros. rewrite py_min_Qmin. apply Q.min_glb; assumption. Qed.

Lemma try_except_raise {A} (e : exn) (handler : exn -> A) :
  try_except (Raise e) handler = handler e.
Proof. reflexivity. Qed.

Lemma try_except_ok {A} (a : A) (handler : exn -> A) :
  try_except (Ok a) handler = a.
Proof. reflexivity. Qed.

(* ================================================================== *)
(** * 10. The importance score                                         *)
(* ================================================================== *)

Lemma importance_formula_Qmin (k len : Z) :
  importance_formula k len ==
  Qmin (Qmin (0.2 * inject_Z k) 0.8 + Qmin (inject_Z len / 1000) 0.2) 1.
Proof.
  unfold importance_formula.
  rewrite !py_min_Qmin.
  apply Q.min_compat; [|reflexivity].
  apply Qplus_comp; [|reflexivity].
  apply Q.min_compat; [|reflexivity].
  ring.
Qed.

Lemma importance_formula_range (k len : Z) :
  (0 <= k)%Z -> (0 <= len)%Z ->
  0 <= importance_formula k len /\ importance_formula k len <= 1.
Proof.
  intros Hk Hl. unfold importance_formula. split.
  - apply py_min_glb; [|lra].
    assert (0 <= inject_Z k) by (change 0 with (inject_Z 0);
      rewrite <- Zle_Qle; exact Hk).
    assert (0 <= inject_Z len) by (change 0 with (inject_Z 0);
      rewrite <- Zle_Qle; exact Hl).
    assert (0 <= py_min (inject_Z k * 0.2) 0.8)
      by (apply py_min_glb; lra).
    assert (0 <= py_min (inject_Z len / 1000) 0.2).
    { apply py_min_glb; [|lra].
      apply Qle_shift_div_l; lra. }
    lra.
  - apply py_min_le_r.
Qed.

(** C5.  For every message and response the score is
    [min(min(0.2 * matches, 0.8) + min(len(text) / 1000, 0.2), 1.0)], where
    [text] is the lower-cased concatenation and [matches] the number of
    keywords of the fixed list that occur in it; whatever exception the body
    raised, the handler answers 0.5; the score lies in [0, 1] on both
    paths. *)
Theorem importance_score_spec (lower : str -> str) (message response : str) :
  let text := lower (message ++ [32%N] ++ response) in
  let matches :=
    Z.of_nat (length (filter (fun k => contains k text)
                        importance_keywords)) in
  let len := Z.of_nat (length text) in
  _calculate_importance_score lower message response ==
    Qmin (Qmin (0.2 * inject_Z matches) 0.8 + Qmin (inject_Z len / 1000) 0.2) 1
  /\ _calculate_importance_score lower message response
       = try_except (importance_try lower message response)
           importance_fallback
  /\ (forall e : exn, try_except (Raise e) importance_fallback = 0.5)
  /\ 0 <= _calculate_importance_score lower message response
  /\ _calculate_importance_score lower message response <= 1.
Proof.
  cbv zeta.
  assert (R := importance_formula_range
                 (Z.of_nat (length (filter
                    (fun k => contains k (lower (message ++ [32%N] ++ response)))
                    importance_keywords)))
                 (Z.of_nat (length (lower (message ++ [32%N] ++ response))))
                 ltac:(lia) ltac:(lia)).
  unfold _calculate_importance_score, importance_try.
  rewrite try_except_ok.
  repeat split; try apply R.
  apply importance_formula_Qmin.
Qed.

(** The score of an empty exchange: no keyword, one code point. *)
Example importance_of_empty_exchange :
  _calculate_importance_score ascii_lower [] [] == 0.001.
Proof. reflexivity. Qed.

(* ================================================================== *)
(** * 11. Relative dates                                               *)
(* ================================================================== *)





Lemma weekday_range t : (0 <= weekday t <= 6)%Z.
Proof. unfold weekday. Z.div_mod_to_equations. lia. Qed.









(* ================================================================== *)
(** * 12. Retrieval                                                    *)
(* ================================================================== *)

Lemma slice_to_length {A} (n : Z) (l : list A) :
  (0 <= n)%Z -> (Z.of_nat (length (slice_to n l)) <= n)%Z.
Proof.
  intros H. unfold slice_to.
  destruct (Z.leb_spec 0 n); [|lia].
  rewrite length_firstn. lia.
Qed.

Lemma in_firstn {A} (n : nat) (l : list A) x : In x (firstn n l) -> In x l.
Proof.
  intros H. rewrite <- (firstn_skipn n l). apply in_or_app. left; exact H.
Qed.

Lemma slice_to_incl {A} (n : Z) (l : list A) x :
  In x (slice_to n l) -> In x l.
Proof.
  unfold slice_to. destruct (0 <=? n)%Z; apply in_firstn.
Qed.

Lemma slice_to_all {A} (n : Z) (l : list A) :
  (Z.of_nat (length l) <= n)%Z -> slice_to n l = l.
Proof.
  intros H. unfold slice_to.
  destruct (Z.leb_spec 0 n); [|lia].
  apply firstn_all2. lia.
Qed.

Lemma StronglySorted_firstn {A} (R : A -> A -> Prop) (n : nat) (l : list A) :
  StronglySorted R l -> StronglySorted R (firstn n l).
Proof.
  intros H. revert n.
  induction H as [|a l Hs IH Hf]; intros [|n]; simpl; try constructor.
  - apply IH.
  - rewrite Forall_forall in *. intros x Hx. apply Hf.
    eapply in_firstn; exact Hx.
Qed.

Lemma slice_to_sorted {A} (R : A -> A -> Prop) (n : Z) (l : list A) :
  StronglySorted R l -> StronglySorted R (slice_to n l).
Proof.
  intros H. unfold slice_to.
  destruct (0 <=? n)%Z; apply StronglySorted_firstn; exact H.
Qed.

Section SortDesc.

Variable A : Type.

Definition key_ge (a b : Q * A) : Prop := fst b <= fst a.

Lemma insert_desc_perm (x : Q * A) l : Permutation (x :: l) (insert_desc x l).
Proof.
  induction l as [|y l IH]; simpl; [apply Permutation_refl|].
  destruct (Qltb (fst x) (fst y)).
  - eapply Permutation_trans; [apply perm_swap|].
    apply perm_skip. exact IH.
  - apply Permutation_refl.
Qed.

Lemma sort_desc_perm (l : list (Q * A)) : Permutation l (sort_desc l).
Proof.
  induction l as [|x l IH]; simpl; [constructor|].
  eapply Permutation_trans; [apply perm_skip; exact IH|].
  apply insert_desc_perm.
Qed.

Lemma insert_desc_sorted (x : Q * A) l :
  StronglySorted key_ge l -> StronglySorted key_ge (insert_desc x l).
Proof.
  induction 1 as [|y l Hs IH Hf]; simpl.
  - constructor; constructor.
  - destruct (Qltb (fst x) (fst y)) eqn:E.
    + constructor; [exact IH|].
      apply (Permutation_Forall (insert_desc_perm x l)).
      constructor; [|exact Hf].
      apply Qltb_lt in E. unfold key_ge. apply Qlt_le_weak, E.
    + apply Qltb_ge in E.
      constructor; [constructor; assumption|].
      constructor; [exact E|].
      rewrite Forall_forall in *. intros z Hz.
      unfold key_ge in *. apply Qle_trans with (fst y); [apply Hf, Hz|exact E].
Qed.

Lemma sort_desc_sorted (l : list (Q * A)) : StronglySorted key_ge (sort_desc l).
Proof.
  induction l as [|x l IH]; simpl; [constructor|].
  apply insert_desc_sorted, IH.
Qed.

End SortDesc.

Lemma StronglySorted_map_in {A B} (R : A -> A -> Prop) (R' : B -> B -> Prop)
    (f : A -> B) (l : list A) :
  (forall a b, In a l -> In b l -> R a b -> R' (f a) (f b)) ->
  StronglySorted R l -> StronglySorted R' (map f l).
Proof.
  intros H Hs. induction Hs as [|a l Hs IH Hf]; simpl; constructor.
  - apply IH. intros x y Hx Hy. apply H; right; assumption.
  - rewrite Forall_forall in *. intros y Hy.
    apply in_map_iff in Hy. destruct Hy as (b & <- & Hb).
    apply H; [left; reflexivity|right; exact Hb|apply Hf, Hb].
Qed.

(** Decorating a list with keys keeps the list and pairs each element
    with its key. *)
Lemma mapM_keys {A} (key : A -> result Q) (l : list A) keyed :
  mapM (fun x => k <- key x ;; Ok (k, x)) l = Ok keyed ->
  map snd keyed = l /\ forall k x, In (k, x) keyed -> key x = Ok k.
Proof.
  revert keyed. induction l as [|a l IH]; simpl; intros keyed E.
  - injection E as <-. split; [reflexivity|intros ? ? []].
  - destruct (key a) as [ka|e] eqn:Ka; simpl in E; [|discriminate].
    destruct (mapM _ l) as [ys|e] eqn:Ys; simpl in E; [|discriminate].
    injection E as <-. destruct (IH ys eq_refl) as [M K].
    split; [simpl; rewrite M; reflexivity|].
    intros k x [P|P]; [injection P as <- <-; exact Ka|apply K, P].
Qed.

Lemma mapM_ok {A B} (f : A -> result B) (l : list A) :
  (forall x, In x l -> exists y, f x = Ok y) -> exists ys, mapM f l = Ok ys.
Proof.
  induction l as [|a l IH]; simpl; intros H; [eexists; reflexivity|].
  destruct (H a (or_introl eq_refl)) as [y ->]. simpl.
  destruct IH as [ys ->]; [intros x Hx; apply H; right; exact Hx|].
  simpl. eexists; reflexivity.
Qed.

Lemma sort_key_blend (x : memory) k :
  sort_key x = Ok k ->
  exists sim, similarity_score x = Some sim
              /\ k == 0.7 * sim + 0.3 * importance_or 0.5 x.
Proof.
  unfold sort_key, importance_or, blend.
  destruct (similarity_score x) as [sim|]; [|discriminate].
  intros E; injection E as <-. exists sim. split; [reflexivity|ring].
Qed.

(** What a successful sort returns: the same documents, highest rank
    first. *)
Lemma sort_by_relevance_spec (l sorted : list memory) :
  sort_by_relevance l = Ok sorted ->
  Permutation l sorted /\ StronglySorted ranked_before sorted.
Proof.
  unfold sort_by_relevance.
  destruct (mapM _ l) as [keyed|e] eqn:E; simpl; [|discriminate].
  intros R; injection R as <-.
  destruct (mapM_keys _ _ _ E) as [M K]. split.
  - rewrite <- M at 1. apply Permutation_map, sort_desc_perm.
  - apply StronglySorted_map_in with (R := key_ge memory);
      [|apply sort_desc_sorted].
    intros [ka a] [kb b] Ha Hb Hab. simpl.
    apply (Permutation_in _ (Permutation_sym (sort_desc_perm _ keyed))) in Ha, Hb.
    destruct (sort_key_blend _ _ (K _ _ Ha)) as (sa & Sa & Ea).
    destruct (sort_key_blend _ _ (K _ _ Hb)) as (sb & Sb & Eb).
    exists sa, sb. repeat split; try assumption.
    unfold key_ge in Hab; simpl in Hab. rewrite <- Ea, <- Eb. exact Hab.
Qed.

Lemma sort_by_relevance_ok (l : list memory) :
  (forall x, In x l -> exists sim, similarity_score x = Some sim) ->
  exists sorted, sort_by_relevance l = Ok sorted.
Proof.
  intros H. unfold sort_by_relevance.
  destruct (mapM_ok (fun x => k <- sort_key x ;; Ok (k, x)) l) as [ys ->].
  - intros x Hx. destruct (H x Hx) as [sim Hs].
    unfold sort_key. rewrite Hs. simpl. eexists; reflexivity.
  - simpl. eexists; reflexivity.
Qed.

Section RetrievalFacts.

Variable encode : str -> result vec.
Variable cosine_similarity : vec -> vec -> result Q.
Variable S : Type.
Variable db : storage S.

Local Abbreviation score := (score_memories cosine_similarity).
Local Abbreviation retrieve_body := (retrieve_try encode cosine_similarity db).
Local Abbreviation retrieve := (retrieve_relevant_memories encode cosine_similarity db).

(** A document that the loop keeps: it has an embedding, its similarity to
    the query is at least the threshold, and it is stored with that
    similarity. *)
Definition kept (query_embedding : vec) (min_similarity : Q)
    (memories : list memory) (r : memory) : Prop :=
  exists m e sim,
    In m memories /\ embedding m = Some e
    /\ cosine_similarity query_embedding e = Ok sim
    /\ min_similarity <= sim
    /\ r = set_similarity m sim.

Lemma score_memories_kept qe min_sim memories relevant :
  score qe min_sim memories = Ok relevant ->
  forall r, In r relevant -> kept qe min_sim memories r.
Proof.
  revert relevant. induction memories as [|m ms IH]; simpl; intros rel E r Hr.
  - injection E as <-. destruct Hr.
  - assert (W : forall rel', score qe min_sim ms = Ok rel' -> In r rel' ->
                kept qe min_sim (m :: ms) r).
    { intros rel' E' Hr'. destruct (IH _ E' _ Hr') as (m' & e & sim & H & H').
      exists m', e, sim. split; [right; exact H|exact H']. }
    destruct (embedding m) as [e|] eqn:Em; [|eapply W; eauto].
    destruct (cosine_similarity qe e) as [sim|x] eqn:C; simpl in E;
      [|discriminate].
    destruct (score qe min_sim ms) as [rel'|x] eqn:Sc; simpl in E;
      [|discriminate].
    injection E as <-.
    destruct (Qle_bool min_sim sim) eqn:L; [|eapply W; eauto].
    destruct Hr as [<-|Hr]; [|eapply W; eauto].
    exists m, e, sim. apply Qle_bool_iff in L.
    repeat split; try assumption. left; reflexivity.
Qed.

(** A document that passes the threshold is in the list that the loop
    builds. *)
Lemma score_memories_keeps qe min_sim memories relevant m e sim :
  score qe min_sim memories = Ok relevant ->
  In m memories -> embedding m = Some e ->
  cosine_similarity qe e = Ok sim -> min_sim <= sim ->
  In (set_similarity m sim) relevant.
Proof.
  revert relevant. induction memories as [|m' ms IH]; simpl;
    intros rel E Hin Em C L; [destruct Hin|].
  destruct (embedding m') as [e'|] eqn:Em'.
  - destruct (cosine_similarity qe e') as [sim'|x] eqn:C'; simpl in E;
      [|discriminate].
    destruct (score qe min_sim ms) as [rel'|x] eqn:Sc; simpl in E;
      [|discriminate].
    injection E as <-.
    destruct Hin as [->|Hin].
    + rewrite Em in Em'. injection Em' as <-.
      rewrite C in C'. injection C' as <-.
      apply Qle_bool_iff in L. rewrite L. left; reflexivity.
    + destruct (Qle_bool min_sim sim'); [right|]; eapply IH; eauto.
  - destruct Hin as [->|Hin]; [congruence|]. eapply IH; eauto.
Qed.

(** The documents without embedding do not count: the loop gives the same
    answer on the list without them. *)
Lemma score_memories_skips qe min_sim memories :
  score qe min_sim (filter has_embedding memories)
  = score qe min_sim memories.
Proof.
  induction memories as [|m ms IH]; simpl; [reflexivity|].
  unfold has_embedding at 1.
  destruct (embedding m) as [e|] eqn:Em; simpl; [|exact IH].
  rewrite Em, IH. reflexivity.
Qed.

Lemma score_memories_ok qe min_sim memories :
  (forall m e, In m memories -> embedding m = Some e ->
               is_ok (cosine_similarity qe e) = true) ->
  exists relevant, score qe min_sim memories = Ok relevant.
Proof.
  induction memories as [|m ms IH]; simpl; intros H;
    [eexists; reflexivity|].
  destruct IH as [rel E];
    [intros m' e' Hm'; apply H; right; exact Hm'|].
  destruct (embedding m) as [e|] eqn:Em; [|exists rel; exact E].
  pose proof (H m e (or_introl eq_refl) Em) as C.
  destruct (cosine_similarity qe e) as [sim|x]; [|discriminate].
  simpl. rewrite E. simpl. eexists; reflexivity.
Qed.

Lemma kept_similarity qe min_sim memories r :
  kept qe min_sim memories r -> exists sim, similarity_score r = Some sim.
Proof.
  intros (m & e & sim & _ & _ & _ & _ & ->). exists sim. reflexivity.
Qed.

(** The steps after the loop do not raise. *)
Lemma retrieve_try_after_loop user_id query limit min_sim s qe memories
    relevant :
  encode query = Ok qe ->
  memory_find_recent db [UserIdEq user_id] 50 s = Ok memories ->
  score qe min_sim memories = Ok relevant ->
  exists sorted,
    sort_by_relevance relevant = Ok sorted
    /\ retrieve_body user_id query limit min_sim s = Ok (slice_to limit sorted).
Proof.
  intros Hq Hf Hs.
  destruct (sort_by_relevance_ok relevant) as [sorted Hsort].
  { intros x Hx. eapply kept_similarity, score_memories_kept; eauto. }
  exists sorted. split; [exact Hsort|].
  unfold retrieve_try. rewrite Hq; simpl. rewrite Hf; simpl.
  destruct memories as [|m ms].
  - simpl in Hs. injection Hs as <-.
    unfold sort_by_relevance in Hsort. simpl in Hsort.
    injection Hsort as <-. unfold slice_to.
    destruct (0 <=? limit)%Z; simpl; rewrite ?firstn_nil; reflexivity.
  - rewrite Hs; simpl. rewrite Hsort; simpl. reflexivity.
Qed.

(** What the function returns, in terms of the loaded documents. *)
Lemma retrieve_cases user_id query limit min_sim s :
  retrieve user_id query limit min_sim s = []
  \/ exists qe memories relevant sorted,
       encode query = Ok qe
       /\ memory_find_recent db [UserIdEq user_id] 50 s = Ok memories
       /\ score qe min_sim memories = Ok relevant
       /\ sort_by_relevance relevant = Ok sorted
       /\ retrieve user_id query limit min_sim s = slice_to limit sorted.
Proof.
  unfold retrieve_relevant_memories.
  destruct (encode query) as [qe|x] eqn:Hq;
    [|left; unfold retrieve_try; rewrite Hq; reflexivity].
  destruct (memory_find_recent db [UserIdEq user_id] 50 s) as [ms|x] eqn:Hf;
    [|left; unfold retrieve_try; rewrite Hq; simpl; rewrite Hf;
      reflexivity].
  destruct (score qe min_sim ms) as [rel|x] eqn:Hs.
  - destruct (retrieve_try_after_loop user_id query limit min_sim s _ _ _ Hq Hf Hs)
      as (sorted & Hsort & R).
    right. exists qe, ms, rel, sorted. rewrite R.
    repeat split; assumption.
  - left. unfold retrieve_try. rewrite Hq; simpl. rewrite Hf; simpl.
    destruct ms as [|m ms]; [reflexivity|]. rewrite Hs. reflexivity.
Qed.

Lemma retrieve_at_most_limit user_id query limit min_sim s :
  (0 <= limit)%Z ->
  (Z.of_nat (length (retrieve user_id query limit min_sim s)) <= limit)%Z.
Proof.
  intros H.
  destruct (retrieve_cases user_id query limit min_sim s)
    as [->|(qe & ms & rel & sorted & _ & _ & _ & _ & ->)].
  - simpl. exact H.
  - apply slice_to_length, H.
Qed.

Lemma retrieve_kept user_id query limit min_sim s r :
  In r (retrieve user_id query limit min_sim s) ->
  exists qe memories,
    encode query = Ok qe
    /\ memory_find_recent db [UserIdEq user_id] 50 s = Ok memories
    /\ kept qe min_sim memories r.
Proof.
  destruct (retrieve_cases user_id query limit min_sim s)
    as [->|(qe & ms & rel & sorted & Hq & Hf & Hs & Hsort & ->)];
    [intros []|].
  intros Hr. exists qe, ms. repeat split; try assumption.
  apply slice_to_incl in Hr.
  destruct (sort_by_relevance_spec _ _ Hsort) as [P _].
  eapply score_memories_kept; [exact Hs|].
  eapply Permutation_in; [apply Permutation_sym, P|exact Hr].
Qed.

Lemma retrieve_sorted user_id query limit min_sim s :
  StronglySorted ranked_before (retrieve user_id query limit min_sim s).
Proof.
  destruct (retrieve_cases user_id query limit min_sim s)
    as [->|(qe & ms & rel & sorted & _ & _ & _ & Hsort & ->)];
    [constructor|].
  apply slice_to_sorted. apply (sort_by_relevance_spec _ _ Hsort).
Qed.

Lemma retrieve_does_not_raise user_id query limit min_sim s qe memories :
  encode query = Ok qe ->
  memory_find_recent db [UserIdEq user_id] 50 s = Ok memories ->
  (forall m e, In m memories -> embedding m = Some e ->
               is_ok (cosine_similarity qe e) = true) ->
  retrieve_body user_id query limit min_sim s
  = Ok (retrieve user_id query limit min_sim s).
Proof.
  intros Hq Hf Hc.
  destruct (score_memories_ok qe min_sim memories Hc)
    as [rel Hs].
  destruct (retrieve_try_after_loop user_id query limit min_sim s _ _ _
              Hq Hf Hs) as (sorted & _ & R).
  unfold retrieve_relevant_memories. rewrite R. reflexivity.
Qed.

Lemma retrieve_nothing_relevant user_id query limit min_sim s qe memories :
  encode query = Ok qe ->
  memory_find_recent db [UserIdEq user_id] 50 s = Ok memories ->
  (forall m e sim, In m memories -> embedding m = Some e ->
                   cosine_similarity qe e = Ok sim -> sim < min_sim) ->
  retrieve user_id query limit min_sim s = [].
Proof.
  intros Hq Hf Hlow.
  destruct (retrieve_cases user_id query limit min_sim s)
    as [E|(qe' & ms & rel & sorted & Hq' & Hf' & Hs & Hsort & ->)];
    [exact E|].
  rewrite Hq in Hq'. injection Hq' as <-.
  rewrite Hf in Hf'. injection Hf' as <-.
  destruct (sort_by_relevance_spec _ _ Hsort) as [P _].
  destruct rel as [|r rel].
  - apply Permutation_nil in P. subst sorted.
    unfold slice_to. destruct (0 <=? limit)%Z; simpl; rewrite ?firstn_nil;
      reflexivity.
  - exfalso.
    destruct (score_memories_kept _ _ _ _ Hs r (or_introl eq_refl))
      as (m & e & sim & Hin & He & Hc & Hle & _).
    apply (Qlt_not_le _ _ (Hlow m e sim Hin He Hc) Hle).
Qed.

(** C1, as amended.  For a limit that is not negative the function returns
    at most [limit] documents; every returned document comes from a loaded
    one that has an embedding, whose cosine similarity to the query is at
    least [min_similarity], and carries that similarity; the result is
    sorted, highest [0.7 * similarity + 0.3 * importance] first; documents
    without embedding make no call fail, so that the body returns when the
    similarity of those that have one can be computed; and when no loaded
    document reaches the threshold the result is empty. *)
Theorem retrieve_relevant_spec (user_id query : str) (limit : Z)
    (min_similarity : Q) (s : S) :
  let res := retrieve user_id query limit min_similarity s in
  ((0 <= limit)%Z -> (Z.of_nat (length res) <= limit)%Z)
  /\ (forall r, In r res ->
        exists qe memories m e sim,
          encode query = Ok qe
          /\ memory_find_recent db [UserIdEq user_id] 50 s = Ok memories
          /\ In m memories /\ embedding m = Some e
          /\ cosine_similarity qe e = Ok sim
          /\ min_similarity <= sim
          /\ r = set_similarity m sim)
  /\ StronglySorted ranked_before res
  /\ (forall qe memories,
        encode query = Ok qe ->
        memory_find_recent db [UserIdEq user_id] 50 s = Ok memories ->
        (forall m e, In m memories -> embedding m = Some e ->
                     is_ok (cosine_similarity qe e) = true) ->
        retrieve_body user_id query limit min_similarity s = Ok res)
  /\ (forall qe memories,
        encode query = Ok qe ->
        memory_find_recent db [UserIdEq user_id] 50 s = Ok memories ->
        (forall m e sim, In m memories -> embedding m = Some e ->
                         cosine_similarity qe e = Ok sim ->
                         sim < min_similarity) ->
        res = []).
Proof.
  cbv zeta. repeat split.
  - apply retrieve_at_most_limit.
  - intros r Hr.
    destruct (retrieve_kept _ _ _ _ _ _ Hr)
      as (qe & ms & Hq & Hf & m & e & sim & H).
    exists qe, ms, m, e, sim. tauto.
  - apply retrieve_sorted.
  - apply retrieve_does_not_raise.
  - apply retrieve_nothing_relevant.
Qed.

End RetrievalFacts.

(** The documents of [u1] that the store loads from [sample_db], newest
    first. *)
Lemma sample_loaded :
  memory_find_recent list_store [UserIdEq (py "u1")] 50 sample_db
  = Ok (firstn 50 (sort_recent (select [UserIdEq (py "u1")] sample_db))).
Proof. reflexivity. Qed.

Ltac each_loaded Hin He :=
  vm_compute in Hin;
  repeat (destruct Hin as [<-|Hin];
          [vm_compute in He;
           first [discriminate He | injection He as <-]|]);
  try contradiction.

(** On the sample store, with limit 2 and threshold 0.3: two documents at
    most, no exception; with threshold 2 nothing is relevant. *)
Lemma retrieve_relevant_spec_witness :
  let res := retrieve_relevant_memories toy_encode unit_cosine list_store
               (py "u1") (py "milk") 2 0.3 sample_db in
  (Z.of_nat (length res) <= 2)%Z
  /\ map mem_id res = [py "m2"; py "m1"]
  /\ retrieve_try toy_encode unit_cosine list_store
       (py "u1") (py "milk") 2 0.3 sample_db = Ok res
  /\ retrieve_relevant_memories toy_encode unit_cosine list_store
       (py "u1") (py "milk") 2 2 sample_db = [].
Proof.
  cbv zeta.
  destruct (retrieve_relevant_spec toy_encode unit_cosine collections list_store
              (py "u1") (py "milk") 2 0.3 sample_db)
    as (Hlen & Hkept & Hsorted & Hok & _).
  destruct (retrieve_relevant_spec toy_encode unit_cosine collections list_store
              (py "u1") (py "milk") 2 2 sample_db)
    as (_ & _ & _ & _ & Hnone).
  split; [apply Hlen; lia|].
  split; [vm_compute; reflexivity|].
  split.
  - apply (Hok [1; 0] _ eq_refl sample_loaded).
    intros m e Hin He. each_loaded Hin He; vm_compute; reflexivity.
  - apply (Hnone [1; 0] _ eq_refl sample_loaded).
    intros m e sim Hin He Hc.
    each_loaded Hin He; vm_compute in Hc; injection Hc as <-; reflexivity.
Defined.

(** C1 as stated fails for a negative limit: [l[:-1]] drops the last
    document only, and two documents are more than -1. *)
Lemma retrieve_negative_limit_counterexample :
  let res := retrieve_relevant_memories toy_encode unit_cosine list_store
               (py "u1") (py "milk") (-1) 0.3 sample_db in
  map mem_id res = [py "m2"; py "m1"]
  /\ ~ (Z.of_nat (length res) <= -1)%Z.
Proof.
  cbv zeta. split; [vm_compute; reflexivity|].
  vm_compute. intros H. apply H. reflexivity.
Qed.

(* ================================================================== *)
(** * 13. A document without importance                                *)
(* ================================================================== *)

Lemma sort_key_default m :
  sort_key (default_importance 0.5 m) = sort_key m.
Proof.
  unfold sort_key, default_importance. simpl.
  destruct (importance_score m); reflexivity.
Qed.

Lemma insert_desc_map {A} (f : A -> A) k x (l : list (Q * A)) :
  insert_desc (k, f x) (map (fun p => (fst p, f (snd p))) l)
  = map (fun p => (fst p, f (snd p))) (insert_desc (k, x) l).
Proof.
  induction l as [|y l IH]; simpl; [reflexivity|].
  destruct (Qltb k (fst y)); simpl; [rewrite IH|]; reflexivity.
Qed.

Lemma sort_desc_map {A} (f : A -> A) (l : list (Q * A)) :
  sort_desc (map (fun p => (fst p, f (snd p))) l)
  = map (fun p => (fst p, f (snd p))) (sort_desc l).
Proof.
  induction l as [|[k x] l IH]; simpl; [reflexivity|].
  rewrite IH. apply insert_desc_map.
Qed.

Lemma keyed_default (l : list memory) :
  mapM (fun x => k <- sort_key x ;; Ok (k, x))
    (map (default_importance 0.5) l)
  = map_result (map (fun p => (fst p, default_importance 0.5 (snd p))))
      (mapM (fun x => k <- sort_key x ;; Ok (k, x)) l).
Proof.
  induction l as [|m l IH]; simpl; [reflexivity|].
  rewrite sort_key_default.
  destruct (sort_key m) as [k|e]; simpl; [|reflexivity].
  rewrite IH. destruct (mapM _ l); reflexivity.
Qed.

(** Ranking commutes with writing the default importance. *)
Lemma sort_by_relevance_default (l : list memory) :
  sort_by_relevance (map (default_importance 0.5) l)
  = map_result (map (default_importance 0.5)) (sort_by_relevance l).
Proof.
  unfold sort_by_relevance. rewrite keyed_default.
  destruct (mapM _ l) as [keyed|e]; simpl; [|reflexivity].
  rewrite sort_desc_map, map_map. simpl.
  rewrite map_map. reflexivity.
Qed.

Lemma slice_to_map {A B} (f : A -> B) n (l : list A) :
  slice_to n (map f l) = map f (slice_to n l).
Proof.
  unfold slice_to. rewrite length_map.
  destruct (0 <=? n)%Z; apply firstn_map.
Qed.

Section MissingImportance.

Variable encode : str -> result vec.
Variable cosine_similarity : vec -> vec -> result Q.
Variable S : Type.
Variable db : storage S.

Local Abbreviation score := (score_memories cosine_similarity).
Local Abbreviation retrieve :=
  (retrieve_relevant_memories encode cosine_similarity db).

Lemma score_memories_default qe min_sim memories :
  score qe min_sim (map (default_importance 0.5) memories)
  = map_result (map (default_importance 0.5)) (score qe min_sim memories).
Proof.
  induction memories as [|m ms IH]; simpl; [reflexivity|].
  rewrite IH.
  destruct (embedding m) as [e|]; [|reflexivity].
  destruct (cosine_similarity qe e) as [sim|x]; simpl; [|reflexivity].
  destruct (score qe min_sim ms) as [rel|x]; simpl; [|reflexivity].
  destruct (Qle_bool min_sim sim); reflexivity.
Qed.

Lemma score_memories_length qe min_sim memories relevant :
  score qe min_sim memories = Ok relevant ->
  (length relevant <= length memories)%nat.
Proof.
  revert relevant. induction memories as [|m ms IH]; simpl; intros rel E.
  - injection E as <-. simpl. lia.
  - destruct (embedding m) as [e|].
    + destruct (cosine_similarity qe e) as [sim|x]; simpl in E;
        [|discriminate].
      destruct (score qe min_sim ms) as [rel'|x]; simpl in E; [|discriminate].
      injection E as <-. specialize (IH _ eq_refl).
      destruct (Qle_bool min_sim sim); simpl; lia.
    + specialize (IH _ E). lia.
Qed.

(** Retrieval over documents whose missing importance is written as 0.5
    gives the same documents in the same order. *)
Lemma retrieve_default user_id query limit min_sim s s' :
  memory_find_recent db [UserIdEq user_id] 50 s'
  = map_result (map (default_importance 0.5))
      (memory_find_recent db [UserIdEq user_id] 50 s) ->
  retrieve user_id query limit min_sim s'
  = map (default_importance 0.5) (retrieve user_id query limit min_sim s).
Proof.
  intros Hf. unfold retrieve_relevant_memories, retrieve_try.
  destruct (encode query) as [qe|x]; simpl; [|reflexivity].
  rewrite Hf.
  destruct (memory_find_recent db [UserIdEq user_id] 50 s) as [ms|x]; simpl;
    [|reflexivity].
  destruct ms as [|m ms]; [reflexivity|].
  change (default_importance 0.5 m :: map (default_importance 0.5) ms)
    with (map (default_importance 0.5) (m :: ms)).
  remember (m :: ms) as l eqn:El.
  assert (N : map (default_importance 0.5) l <> []) by (subst l; discriminate).
  destruct (map (default_importance 0.5) l) as [|m0 l0] eqn:Em;
    [contradiction|].
  rewrite <- Em. clear N Em.
  rewrite score_memories_default.
  rewrite El.
  destruct (score qe min_sim (m :: ms)) as [rel|x]; simpl; [|reflexivity].
  rewrite sort_by_relevance_default.
  destruct (sort_by_relevance rel) as [sorted|x]; simpl; [|reflexivity].
  apply slice_to_map.
Qed.

(** C9.  A document that passes the similarity test and has no
    [importance_score] is kept, and its sort key is
    [0.7 * similarity + 0.3 * 0.5]: it is returned when the limit does not
    cut it off, and the whole result is the one obtained with 0.5 written
    in place of the missing field. *)
Theorem missing_importance_ranks_as_half (user_id query : str) (limit : Z)
    (min_similarity : Q) (s : S) :
  (forall m sim,
      importance_score m = None ->
      exists k, sort_key (set_similarity m sim) = Ok k
                /\ k == 0.7 * sim + 0.3 * 0.5)
  /\ (forall qe memories m e sim,
        encode query = Ok qe ->
        memory_find_recent db [UserIdEq user_id] 50 s = Ok memories ->
        (forall m' e', In m' memories -> embedding m' = Some e' ->
                       is_ok (cosine_similarity qe e') = true) ->
        In m memories -> embedding m = Some e ->
        importance_score m = None ->
        cosine_similarity qe e = Ok sim -> min_similarity <= sim ->
        (Z.of_nat (length memories) <= limit)%Z ->
        In (set_similarity m sim)
          (retrieve user_id query limit min_similarity s))
  /\ (forall s',
        memory_find_recent db [UserIdEq user_id] 50 s'
        = map_result (map (default_importance 0.5))
            (memory_find_recent db [UserIdEq user_id] 50 s) ->
        retrieve user_id query limit min_similarity s'
        = map (default_importance 0.5)
            (retrieve user_id query limit min_similarity s)).
Proof.
  split; [|split].
  - intros m sim Hi. unfold sort_key, set_similarity, blend. simpl.
    rewrite Hi. eexists. split; [reflexivity|ring].
  - intros qe memories m e sim Hq Hf Hok Hin He _ Hc Hle Hlim.
    destruct (score_memories_ok cosine_similarity qe min_similarity
                memories Hok) as [rel Hs].
    destruct (retrieve_try_after_loop encode cosine_similarity S db
                user_id query limit min_similarity s _ _ _ Hq Hf Hs)
      as (sorted & Hsort & R).
    unfold retrieve_relevant_memories. rewrite R. simpl.
    destruct (sort_by_relevance_spec _ _ Hsort) as [P _].
    rewrite slice_to_all.
    + apply (Permutation_in _ P).
      eapply score_memories_keeps; eauto.
    + rewrite <- (Permutation_length P).
      pose proof (score_memories_length _ _ _ _ Hs). lia.
  - intros s'. apply retrieve_default.
Qed.

End MissingImportance.

(** On the sample store [m4] has no importance: with similarity 0.6 (the
    fraction 60/100 of the dot product) it is returned, third, and the
    result is that of the filled store. *)
Lemma missing_importance_witness :
  let res := retrieve_relevant_memories toy_encode unit_cosine list_store
               (py "u1") (py "milk") 5 0.3 sample_db in
  let m4 := sample_memory (py "m4") (Some [0.6; 0.8]) None
              (sub_days sample_now 1) in
  In (set_similarity m4 0.60) res
  /\ map mem_id res = [py "m2"; py "m1"; py "m4"]
  /\ retrieve_relevant_memories toy_encode unit_cosine list_store
       (py "u1") (py "milk") 5 0.3 sample_db_filled
     = map (default_importance 0.5) res.
Proof.
  cbv zeta.
  destruct (missing_importance_ranks_as_half toy_encode unit_cosine
              collections list_store (py "u1") (py "milk") 5 0.3 sample_db)
    as (_ & Hin & Hfill).
  split; [|split].
  - apply (Hin [1; 0] _ _ [0.6; 0.8] 0.60 eq_refl sample_loaded).
    + intros m e H He. each_loaded H He; vm_compute; reflexivity.
    + vm_compute. tauto.
    + reflexivity.
    + reflexivity.
    + reflexivity.
    + vm_compute. discriminate.
    + vm_compute. discriminate.
  - vm_compute. reflexivity.
  - apply Hfill. vm_compute. reflexivity.
Defined.

(* ================================================================== *)
(** * 14. Clean-up                                                     *)
(* ================================================================== *)






(* ================================================================== *)
(** * 15. The cut-offs for [days] ago                                  *)
(* ================================================================== *)

Section Cutoffs.

Variable S : Type.
Variable db db' : storage S.



End Cutoffs.



(* ================================================================== *)
(** * 16. Storing an exchange                                          *)
(* ================================================================== *)

Section StoreFacts.

Variable lower : str -> str.
Variable encode : str -> result vec.
Variable timestamp_str : datetime -> str.
Variable S : Type.
Variable db : storage S.
Variable analyze_and_save : str -> list memory -> datetime -> M S dict.

Local Abbreviation trigger := (_trigger_memory_synthesis db analyze_and_save).
Local Abbreviation store_memory :=
  (store_conversation_memory lower encode timestamp_str db analyze_and_save).
Local Abbreviation entry := (memory_entry lower timestamp_str).

(** The profile update answers with a document, whatever its body does. *)
Lemma update_user_profile_total user_id now s :
  exists s' d,
    update_user_profile_from_memory db analyze_and_save user_id now s
    = (s', Ok d).
Proof.
  unfold update_user_profile_from_memory, try_exceptM, bindM, read, ret.
  destruct (memory_find_recent db _ 100 s) as [[|m ms]|e].
  - eexists _, _; reflexivity.
  - destruct (analyze_and_save user_id (m :: ms) now s) as [s' [d|e]];
      eexists _, _; reflexivity.
  - eexists _, _; reflexivity.
Qed.

(** The trigger catches what its body raises. *)
Lemma trigger_total user_id now s :
  exists s', trigger user_id now s = (s', Ok tt).
Proof.
  unfold _trigger_memory_synthesis, try_exceptM, bindM, read, ret.
  destruct (memory_count_documents db [UserIdEq user_id] s) as [n|e];
    [|eexists; reflexivity].
  destruct ((0 <? n)%Z && (n mod 50 =? 0)%Z); [|eexists; reflexivity].
  destruct (update_user_profile_from_memory db analyze_and_save user_id now s)
    as [s' [d|e]]; eexists; reflexivity.
Qed.

(** C10.  The function returns a boolean and never raises; when the
    embedding and the insertion succeed it returns [True], whatever the
    count of documents, the profile update or its analysis do; and it
    returns [False] only when the embedding or the insertion raised. *)
Theorem store_conversation_memory_spec
    (user_id conversation_id message response message_type : str)
    (t_id t_stamp : datetime) (s : S) :
  let combined_text := message ++ [32%N] ++ response in
  let outcome :=
    snd (store_memory user_id conversation_id message response message_type
           t_id t_stamp s) in
  (exists b, outcome = Ok b)
  /\ (forall embedding s1,
        encode combined_text = Ok embedding ->
        memory_insert_one db
          (entry user_id conversation_id message response message_type
             embedding t_id t_stamp) s = (s1, Ok tt) ->
        outcome = Ok true)
  /\ (outcome = Ok false ->
      (exists e, encode combined_text = Raise e)
      \/ (exists embedding e,
            encode combined_text = Ok embedding
            /\ snd (memory_insert_one db
                      (entry user_id conversation_id message response
                         message_type embedding t_id t_stamp) s)
               = Raise e)).
Proof.
  cbv zeta.
  unfold store_conversation_memory, try_exceptM, bindM, lift, ret.
  destruct (encode (message ++ [32%N] ++ response)) as [emb|e] eqn:He.
  - destruct (memory_insert_one db _ s) as [s1 [[]|e]] eqn:Hi.
    + destruct (trigger_total user_id t_stamp s1) as [s2 Ht].
      rewrite Ht. simpl. repeat split.
      * exists true; reflexivity.
      * intros H; discriminate H.
    + simpl. split; [exists false; reflexivity|]. split.
      * intros emb' s1' E. injection E as <-. rewrite Hi. discriminate.
      * intros _. right. exists emb, e. rewrite Hi. split; reflexivity.
  - simpl. split; [exists false; reflexivity|]. split.
    + intros emb s1 E. discriminate E.
    + intros _. left. exists e. reflexivity.
Qed.

End StoreFacts.

(** An exchange stored when the user has 50 documents and the profile
    analysis fails, and one stored when the count itself fails: [True]
    both times. *)
Lemma store_conversation_memory_witness :
  let fifty := with_count list_store (fun _ _ => Ok 50%Z) in
  let no_count := with_count list_store (fun _ _ => Raise unreachable) in
  snd (store_conversation_memory ascii_lower toy_encode no_timestamp_str
         fifty failing_analysis (py "u1") (py "c1") (py "buy milk")
         (py "ok") (py "user") sample_now sample_now sample_db)
  = Ok true
  /\ snd (store_conversation_memory ascii_lower toy_encode no_timestamp_str
            no_count failing_analysis (py "u1") (py "c1") (py "buy milk")
            (py "ok") (py "user") sample_now sample_now sample_db)
     = Ok true
  /\ snd (update_user_profile_from_memory fifty failing_analysis (py "u1")
            sample_now sample_db)
     = Ok [(py "updated", PBool false);
           (py "error", PStr (py "'communication_style'"))].
Proof.
  cbv zeta. split; [|split].
  - destruct (store_conversation_memory_spec ascii_lower toy_encode
                no_timestamp_str collections
                (with_count list_store (fun _ _ => Ok 50%Z))
                failing_analysis (py "u1") (py "c1") (py "buy milk")
                (py "ok") (py "user") sample_now sample_now sample_db)
      as (_ & H & _).
    eapply H; reflexivity.
  - destruct (store_conversation_memory_spec ascii_lower toy_encode
                no_timestamp_str collections
                (with_count list_store (fun _ _ => Raise unreachable))
                failing_analysis (py "u1") (py "c1") (py "buy milk")
                (py "ok") (py "user") sample_now sample_now sample_db)
      as (_ & H & _).
    eapply H; reflexivity.
  - vm_compute. reflexivity.
Defined.

(* ================================================================== *)
(** * 17. Dictionaries and the object store                            *)
(* ================================================================== *)

Lemma dget_dset_same k v d : dget k (dset k v d) = Some v.
Proof.
  induction d as [|[k' v'] d IH]; simpl.
  - rewrite str_eqb_refl. reflexivity.
  - destruct (str_eqb k k') eqn:E; simpl; rewrite ?str_eqb_refl, ?E;
      [reflexivity|exact IH].
Qed.

Lemma dget_dset_other k k' v d :
  str_eqb k k' = false -> dget k (dset k' v d) = dget k d.
Proof.
  intros N. induction d as [|[k0 v0] d IH]; simpl.
  - rewrite N. reflexivity.
  - destruct (str_eqb k' k0) eqn:E; simpl.
    + apply str_eqb_eq in E. subst k0. rewrite N. reflexivity.
    + destruct (str_eqb k k0); [reflexivity|exact IH].
Qed.

Lemma deref_update_same (h : store) r d :
  (r < length h)%nat -> deref (update h r d) r = d.
Proof.
  unfold deref. revert r. induction h as [|x h IH]; intros [|r] H; simpl in *;
    try lia; [reflexivity|apply IH; lia].
Qed.

Lemma deref_update_other (h : store) r k d :
  r <> k -> deref (update h r d) k = deref h k.
Proof.
  unfold deref. revert r k.
  induction h as [|x h IH]; intros [|r] [|k] N; simpl; try reflexivity;
    try congruence.
  apply IH. congruence.
Qed.

Lemma length_update (h : store) r d : length (update h r d) = length h.
Proof.
  revert r. induction h as [|x h IH]; intros [|r]; simpl; auto.
Qed.

Lemma map_deref_update_notin (h : store) r d refs :
  ~ In r refs -> map (deref (update h r d)) refs = map (deref h) refs.
Proof.
  intros N. apply map_ext_in. intros k Hk.
  apply deref_update_other. intros ->. exact (N Hk).
Qed.

Lemma map_deref_seq (pre l post : list dict) :
  map (deref (pre ++ l ++ post)) (seq (length pre) (length l)) = l.
Proof.
  revert pre. induction l as [|x l IH]; intros pre; simpl; [reflexivity|].
  f_equal.
  - unfold deref. rewrite app_nth2 by lia.
    rewrite Nat.sub_diag. reflexivity.
  - specialize (IH (pre ++ [x])).
    rewrite length_app, Nat.add_1_r, <- app_assoc in IH. exact IH.
Qed.

(* ================================================================== *)
(** * 18. Merging the two extractions                                  *)
(* ================================================================== *)

Lemma Qltb_half_zero (x : Q) : Qltb 0.5 (0 / x) = false.
Proof.
  apply Qltb_ge. unfold Qdiv. rewrite Qmult_0_l. discriminate.
Qed.

Lemma intersection_nil_r (a : list str) : intersection a [] = [].
Proof.
  unfold intersection. induction a as [|w a IH]; simpl; auto.
Qed.

Lemma mem_In w ws : mem w ws = true <-> In w ws.
Proof.
  induction ws as [|x ws IH]; simpl; [split; [discriminate|tauto]|].
  rewrite orb_true_iff, str_eqb_eq, IH. split; intros [H|H]; auto.
Qed.

Lemma to_set_In w ws : In w (to_set ws) <-> In w ws.
Proof.
  induction ws as [|x ws IH]; simpl; [tauto|].
  destruct (mem x ws) eqn:E.
  - rewrite IH. apply mem_In in E. split; [auto|].
    intros [<-|H]; assumption.
  - simpl. rewrite IH. tauto.
Qed.

(** [set(words)] has no word twice. *)
Lemma to_set_NoDup ws : NoDup (to_set ws).
Proof.
  induction ws as [|x ws IH]; simpl; [constructor|].
  destruct (mem x ws) eqn:E; [exact IH|].
  constructor; [|exact IH].
  rewrite to_set_In, <- mem_In, E. discriminate.
Qed.

Section MergeFacts.

Variable lower : str -> str.

Local Abbreviation similar := (_are_tasks_similar lower).
Local Abbreviation scan := (scan_merged lower).
Local Abbreviation loop := (merge_loop lower).

(** The test of the program is the test of the specification. *)
Lemma are_tasks_similar_jaccard t1 t2 :
  similar t1 t2 = titles_similar lower t1 t2.
Proof.
  unfold _are_tasks_similar, titles_similar.
  destruct t1 as [| | |a| |]; try reflexivity.
  destruct t2 as [| | |b| |]; try reflexivity.
  simpl. unfold jaccard, title_tokens.
  destruct (to_set (split (lower a))) as [|x ta].
  - simpl. symmetry. apply Qltb_half_zero.
  - destruct (to_set (split (lower b))) as [|y tb]; [|reflexivity].
    simpl. rewrite intersection_nil_r. simpl.
    symmetry. apply Qltb_half_zero.
Qed.

Lemma getitem_title d : has_title d -> getitem (py "title") d = Ok (title_of d).
Proof.
  intros [v H]. unfold getitem, title_of, dget_default. rewrite H. reflexivity.
Qed.

Lemma has_title_dset_date v d :
  has_title d -> has_title (dset (py "estimated_date") v d).
Proof.
  intros [t H]. exists t. rewrite dget_dset_other; [exact H|reflexivity].
Qed.

Lemma title_of_dset_date v d :
  title_of (dset (py "estimated_date") v d) = title_of d.
Proof.
  unfold title_of, dget_default. rewrite dget_dset_other; reflexivity.
Qed.

Lemma has_title_backfill r d : has_title d -> has_title (backfill r d).
Proof.
  intros H. unfold backfill.
  destruct (negb (has_date d) && has_date r); [|exact H].
  apply has_title_dset_date, H.
Qed.

(** The store after a back-fill of the object [m]. *)
Definition backfilled (h : store) (r m : nat) : store :=
  if negb (has_date (deref h m)) && has_date (deref h r)
  then update h m (backfill (deref h r) (deref h m))
  else h.

Lemma backfilled_length h r m : length (backfilled h r m) = length h.
Proof.
  unfold backfilled. destruct (_ && _); [apply length_update|reflexivity].
Qed.

Lemma backfilled_other h r m k :
  m <> k -> deref (backfilled h r m) k = deref h k.
Proof.
  intros N. unfold backfilled.
  destruct (_ && _); [apply deref_update_other, N|reflexivity].
Qed.

Lemma backfilled_same h r m :
  (m < length h)%nat ->
  deref (backfilled h r m) m = backfill (deref h r) (deref h m).
Proof.
  intros L. unfold backfilled, backfill.
  destruct (negb (has_date (deref h m)) && has_date (deref h r)) eqn:E.
  - rewrite deref_update_same by exact L. reflexivity.
  - reflexivity.
Qed.

(** A scan of the merged references against the search of the
    specification on their objects. *)
Lemma scan_merged_absorb (h : store) (r : nat) (merged : list nat) :
  has_title (deref h r) ->
  (forall m, In m merged -> has_title (deref h m) /\ (m < length h)%nat) ->
  NoDup merged ->
  exists h' dup,
    scan h r merged = Ok (h', dup)
    /\ length h' = length h
    /\ (forall k, ~ In k merged -> deref h' k = deref h k)
    /\ (forall k, has_title (deref h k) -> has_title (deref h' k))
    /\ match absorb lower (deref h r) (map (deref h) merged) with
       | Some objects => dup = true /\ map (deref h') merged = objects
       | None => dup = false /\ h' = h
       end.
Proof.
  intros Hr. induction merged as [|m rest IH]; intros Hm Hnd.
  - exists h, false. simpl. repeat split; auto.
  - simpl.
    destruct (Hm m (or_introl eq_refl)) as [Tm Lm].
    rewrite (getitem_title _ Hr), (getitem_title _ Tm). simpl.
    rewrite are_tasks_similar_jaccard.
    inversion Hnd as [|? ? Nm Hnd']; subst.
    destruct (titles_similar lower (title_of (deref h r))
                (title_of (deref h m))) eqn:Sim.
    + exists (backfilled h r m), true.
      assert (E : (if negb (truthy_opt (dget (py "estimated_date") (deref h m)))
                      && truthy_opt (dget (py "estimated_date") (deref h r))
                   then
                     d <- getitem (py "estimated_date") (deref h r) ;;
                     Ok (update h m (dset (py "estimated_date") d (deref h m)),
                         true)
                   else Ok (h, true))
                  = Ok (backfilled h r m, true)).
      { unfold backfilled, backfill, has_date.
        destruct (negb (truthy_opt (dget (py "estimated_date") (deref h m)))
                  && truthy_opt (dget (py "estimated_date") (deref h r)))
          eqn:B; [|reflexivity].
        apply andb_true_iff in B. destruct B as [_ B].
        unfold getitem, dget_default.
        destruct (dget (py "estimated_date") (deref h r)); [|discriminate].
        reflexivity. }
      rewrite E. split; [reflexivity|].
      split; [apply backfilled_length|].
      split; [intros k Hk; apply backfilled_other; intros ->; apply Hk;
              left; reflexivity|].
      split.
      * intros k Hk. destruct (Nat.eq_dec m k) as [<-|N].
        -- rewrite backfilled_same by exact Lm. apply has_title_backfill, Hk.
        -- rewrite backfilled_other by exact N. exact Hk.
      * split; [reflexivity|]. f_equal.
        -- apply backfilled_same, Lm.
        -- apply map_ext_in. intros k Hk. apply backfilled_other.
           intros ->. exact (Nm Hk).
    + destruct IH as (h' & dup & E & Hlen & Hother & Htitle & Habs);
        [intros k Hk; apply Hm; right; exact Hk|exact Hnd'|].
      exists h', dup. rewrite E. split; [reflexivity|].
      split; [exact Hlen|].
      split; [intros k Hk; apply Hother; intros Hin; apply Hk; right;
              exact Hin|].
      split; [exact Htitle|].
      destruct (absorb lower (deref h r) (map (deref h) rest)) as [objs|];
        simpl.
      * destruct Habs as [-> <-]. split; [reflexivity|].
        rewrite (Hother m Nm). reflexivity.
      * exact Habs.
Qed.

(** The loop over the rule references against the fold of the
    specification. *)
Lemma merge_loop_fold (rule_refs : list nat) :
  forall (h : store) (merged : list nat),
    (forall k, In k (merged ++ rule_refs) ->
               has_title (deref h k) /\ (k < length h)%nat) ->
    NoDup (merged ++ rule_refs) ->
    exists h' merged',
      loop h merged rule_refs = (h', Ok merged')
      /\ map (deref h') merged'
         = fold_left (merge_step lower) (map (deref h) rule_refs)
             (map (deref h) merged).
Proof.
  induction rule_refs as [|r rest IH]; intros h merged Hall Hnd.
  - exists h, merged. split; reflexivity.
  - simpl.
    assert (Hr : has_title (deref h r))
      by (apply Hall, in_or_app; right; left; reflexivity).
    assert (Hm : forall m, In m merged ->
                   has_title (deref h m) /\ (m < length h)%nat)
      by (intros m Hin; apply Hall, in_or_app; left; exact Hin).
    assert (Nm : NoDup merged) by (eapply NoDup_app_remove_r; exact Hnd).
    assert (Nr : ~ In r merged).
    { intros Hin. apply NoDup_remove_2 in Hnd. apply Hnd.
      apply in_or_app. left; exact Hin. }
    assert (Nrest : forall k, In k rest -> ~ In k merged).
    { intros k Hk Hin. apply NoDup_remove_1 in Hnd.
      revert Hnd. clear - Hk Hin. induction merged as [|x merged IHm]; simpl.
      - destruct Hin.
      - intros Hnd. inversion Hnd as [|? ? Nx Hnd']; subst.
        destruct Hin as [->|Hin]; [|apply IHm; assumption].
        apply Nx, in_or_app. right; exact Hk. }
    destruct (scan_merged_absorb h r merged Hr Hm Nm)
      as (h1 & dup & E & Hlen & Hother & Htitle & Habs).
    rewrite E.
    assert (Hrest : map (deref h1) rest = map (deref h) rest).
    { apply map_ext_in. intros k Hk. apply Hother, Nrest, Hk. }
    unfold merge_step at 2.
    destruct (absorb lower (deref h r) (map (deref h) merged)) as [objs|].
    + destruct Habs as [-> Hobjs].
      destruct (IH h1 merged) as (h' & merged' & El & Ef).
      * intros k Hk. rewrite Hlen. split.
        -- apply Htitle. apply Hall.
           apply in_app_or in Hk. apply in_or_app.
           destruct Hk; [left|right; right]; assumption.
        -- apply Hall. apply in_app_or in Hk. apply in_or_app.
           destruct Hk; [left|right; right]; assumption.
      * apply NoDup_remove_1 in Hnd. exact Hnd.
      * exists h', merged'. split; [exact El|].
        rewrite Ef, Hrest, Hobjs. reflexivity.
    + destruct Habs as [-> ->].
      destruct (IH h (merged ++ [r])) as (h' & merged' & El & Ef).
      * intros k Hk. apply Hall. rewrite <- app_assoc in Hk. exact Hk.
      * rewrite <- app_assoc. exact Hnd.
      * exists h', merged'. split; [exact El|].
        rewrite Ef, map_app. reflexivity.
Qed.

(** With titles on all tasks the merge of the program is the merge of the
    specification. *)
Lemma merge_refines_spec (rule_tasks ai_tasks : list dict) :
  Forall has_title (ai_tasks ++ rule_tasks) ->
  _merge_task_extractions lower rule_tasks ai_tasks
  = merge_spec lower rule_tasks ai_tasks.
Proof.
  intros Ht. unfold _merge_task_extractions, merge_spec.
  pose proof (map_deref_seq [] ai_tasks rule_tasks) as Ea.
  pose proof (map_deref_seq ai_tasks rule_tasks []) as Er.
  rewrite app_nil_r in Er. simpl in Ea.
  destruct (merge_loop_fold (seq (length ai_tasks) (length rule_tasks))
              (ai_tasks ++ rule_tasks) (seq 0 (length ai_tasks)))
    as (h' & merged' & El & Ef).
  - intros k Hk. rewrite <- seq_app in Hk. apply in_seq in Hk.
    rewrite length_app. split; [|lia].
    rewrite Forall_forall in Ht. apply Ht. unfold deref. apply nth_In.
    rewrite length_app. lia.
  - rewrite <- seq_app. apply seq_NoDup.
  - rewrite El, Ef, Ea, Er. reflexivity.
Qed.

(** A rule task that no merged task resembles is appended. *)
Lemma merge_step_appends (merged : list dict) (r : dict) :
  (forall m, In m merged ->
             titles_similar lower (title_of r) (title_of m) = false) ->
  merge_step lower merged r = merged ++ [r].
Proof.
  intros H. unfold merge_step.
  assert (A : absorb lower r merged = None).
  { induction merged as [|m rest IH]; simpl; [reflexivity|].
    rewrite (H m (or_introl eq_refl)).
    rewrite IH; [reflexivity|]. intros k Hk. apply H. right; exact Hk. }
  rewrite A. reflexivity.
Qed.

(** A rule task that resembles a merged task is not appended; the first
    such task is back-filled. *)
Lemma merge_step_absorbs (pre post : list dict) (m r : dict) :
  (forall x, In x pre ->
             titles_similar lower (title_of r) (title_of x) = false) ->
  titles_similar lower (title_of r) (title_of m) = true ->
  merge_step lower (pre ++ m :: post) r = pre ++ backfill r m :: post.
Proof.
  intros Hpre Hm. unfold merge_step.
  assert (A : absorb lower r (pre ++ m :: post)
              = Some (pre ++ backfill r m :: post)).
  { induction pre as [|x pre IH]; simpl.
    - rewrite Hm. reflexivity.
    - rewrite (Hpre x (or_introl eq_refl)).
      rewrite IH; [reflexivity|]. intros k Hk. apply Hpre. right; exact Hk. }
  rewrite A. reflexivity.
Qed.

Lemma dset_dset k v v' d : dset k v' (dset k v d) = dset k v' d.
Proof.
  induction d as [|[k0 v0] d IH]; simpl.
  - rewrite str_eqb_refl. reflexivity.
  - destruct (str_eqb k k0) eqn:E; simpl.
    + rewrite str_eqb_refl. reflexivity.
    + rewrite E, IH. reflexivity.
Qed.

Lemma same_but_date_refl a : same_but_date a a.
Proof. left; reflexivity. Qed.

Lemma same_but_date_trans a b c :
  same_but_date a b -> same_but_date b c -> same_but_date a c.
Proof.
  intros [->|[v ->]] [->|[v' ->]].
  - left; reflexivity.
  - right; exists v'; reflexivity.
  - right; exists v; reflexivity.
  - right; exists v'. apply dset_dset.
Qed.

Lemma same_but_date_backfill r m : same_but_date m (backfill r m).
Proof.
  unfold backfill. destruct (_ && _); [right; eexists; reflexivity|].
  left; reflexivity.
Qed.

Lemma Forall2_same_refl l : Forall2 same_but_date l l.
Proof. induction l; constructor; auto using same_but_date_refl. Qed.

Lemma Forall2_same_trans l1 l2 l3 :
  Forall2 same_but_date l1 l2 -> Forall2 same_but_date l2 l3 ->
  Forall2 same_but_date l1 l3.
Proof.
  intros H. revert l3. induction H as [|a b l1 l2 Hab H IH]; intros l3 H3;
    inversion H3; subst; constructor.
  - eapply same_but_date_trans; eauto.
  - apply IH. assumption.
Qed.

Lemma absorb_same r merged objects :
  absorb lower r merged = Some objects -> Forall2 same_but_date merged objects.
Proof.
  revert objects. induction merged as [|m rest IH]; simpl; intros objs E;
    [discriminate|].
  destruct (titles_similar lower (title_of r) (title_of m)).
  - injection E as <-. constructor;
      [apply same_but_date_backfill|apply Forall2_same_refl].
  - destruct (absorb lower r rest) as [objs'|]; [|discriminate].
    injection E as <-. constructor; [apply same_but_date_refl|].
    apply IH. reflexivity.
Qed.

(** The merged list starts with the model tasks, each with its date
    possibly filled in, and goes on with rule tasks. *)
Lemma merge_spec_model_first (rule_tasks : list dict) :
  forall merged,
  exists merged' tail,
    fold_left (merge_step lower) rule_tasks merged = merged' ++ tail
    /\ Forall2 same_but_date merged merged'
    /\ (forall t, In t tail -> exists r, In r rule_tasks /\ same_but_date r t)
    /\ (length tail <= length rule_tasks)%nat.
Proof.
  induction rule_tasks as [|r rest IH]; intros merged; simpl.
  - exists merged, []. rewrite app_nil_r.
    split; [reflexivity|]. split; [apply Forall2_same_refl|].
    split; [intros t []|simpl; lia].
  - unfold merge_step at 2.
    destruct (absorb lower r merged) as [objs|] eqn:A.
    + destruct (IH objs) as (m' & tail & E & F & T & L).
      exists m', tail. split; [exact E|]. split.
      * eapply Forall2_same_trans; [eapply absorb_same; exact A|exact F].
      * split; [|simpl; lia]. intros t Ht. destruct (T t Ht) as (x & Hx & Sx).
        exists x. split; [right; exact Hx|exact Sx].
    + destruct (IH (merged ++ [r])) as (m' & tail & E & F & T & L).
      apply Forall2_app_inv_l in F.
      destruct F as (a' & r' & Fa & Fr & ->).
      inversion Fr as [|? r1 ? ? Sr Fnil]; subst. inversion Fnil; subst.
      exists a', (r1 :: tail). rewrite <- app_assoc in E. split; [exact E|].
      split; [exact Fa|]. split; [|simpl; lia].
      intros t [<-|Ht].
      * exists r. split; [left; reflexivity|exact Sr].
      * destruct (T t Ht) as (x & Hx & Sx).
        exists x. split; [right; exact Hx|exact Sx].
Qed.

(** C2.  With a title on every task, the merge of the program is the fold
    of the specification's step over the rule tasks, started from the model
    tasks: the model tasks come first; a rule task that no merged task
    resembles is appended; a rule task that resembles one is not, and the
    first merged task it resembles takes its date when it had none and the
    rule task has one; two titles resemble each other when the Jaccard
    similarity of their lower-cased token sets exceeds 0.5 strictly.  A
    model task "Buy milk" and a rule task "buy some milk" have similarity
    2/3 and merge into one entry. *)
Theorem merge_task_extractions_spec (rule_tasks ai_tasks : list dict) :
  (Forall has_title (ai_tasks ++ rule_tasks) ->
   _merge_task_extractions lower rule_tasks ai_tasks
   = fold_left (merge_step lower) rule_tasks ai_tasks)
  /\ (exists merged' tail,
        fold_left (merge_step lower) rule_tasks ai_tasks = merged' ++ tail
        /\ Forall2 same_but_date ai_tasks merged'
        /\ (forall t, In t tail ->
                      exists r, In r rule_tasks /\ same_but_date r t)
        /\ (length tail <= length rule_tasks)%nat)
  /\ (forall merged r,
        (forall m, In m merged ->
                   titles_similar lower (title_of r) (title_of m) = false) ->
        merge_step lower merged r = merged ++ [r])
  /\ (forall pre m post r,
        (forall x, In x pre ->
                   titles_similar lower (title_of r) (title_of x) = false) ->
        titles_similar lower (title_of r) (title_of m) = true ->
        merge_step lower (pre ++ m :: post) r = pre ++ backfill r m :: post)
  /\ (forall r m,
        (has_date m = false -> has_date r = true ->
         dget (py "estimated_date") (backfill r m)
         = dget (py "estimated_date") r)
        /\ (has_date m = true \/ has_date r = false -> backfill r m = m))
  /\ (forall t1 t2,
        _are_tasks_similar lower t1 t2 = true
        <-> exists a b,
              t1 = PStr a /\ t2 = PStr b
              /\ 0.5 < jaccard (title_tokens lower a) (title_tokens lower b))
  /\ (forall model_task rule_task,
        lower (py "Buy milk") = py "buy milk" ->
        lower (py "buy some milk") = py "buy some milk" ->
        dget (py "title") model_task = Some (PStr (py "Buy milk")) ->
        dget (py "title") rule_task = Some (PStr (py "buy some milk")) ->
        jaccard (title_tokens lower (py "Buy milk"))
          (title_tokens lower (py "buy some milk")) == 2 # 3
        /\ _merge_task_extractions lower [rule_task] [model_task]
           = [backfill rule_task model_task]).
Proof.
  split; [apply merge_refines_spec|].
  split; [apply merge_spec_model_first|].
  split; [apply merge_step_appends|].
  split; [intros pre m post r; apply merge_step_absorbs|].
  split; [|split].
  - intros r m. split.
    + intros Hm Hr. unfold backfill. rewrite Hm, Hr. simpl.
      rewrite dget_dset_same. unfold has_date in Hr. unfold dget_default.
      destruct (dget (py "estimated_date") r); [reflexivity|discriminate].
    + intros H. unfold backfill.
      destruct H as [-> | ->]; simpl; [reflexivity|].
      rewrite andb_false_r. reflexivity.
  - intros t1 t2. rewrite are_tasks_similar_jaccard. unfold titles_similar.
    split.
    + destruct t1 as [| | |a| |]; try discriminate.
      destruct t2 as [| | |b| |]; try discriminate.
      intros H. exists a, b. repeat split. apply Qltb_lt, H.
    + intros (a & b & -> & -> & H). apply Qltb_lt, H.
  - intros model_task rule_task L1 L2 T1 T2.
    assert (J : jaccard (title_tokens lower (py "Buy milk"))
                  (title_tokens lower (py "buy some milk")) = 2 # 3).
    { unfold title_tokens. rewrite L1, L2. vm_compute. reflexivity. }
    split; [rewrite J; reflexivity|].
    rewrite merge_refines_spec.
    + unfold merge_spec. simpl.
      apply (merge_step_absorbs [] [] model_task rule_task); [intros x []|].
      unfold title_of, dget_default. rewrite T1, T2.
      unfold titles_similar, title_tokens. rewrite L1, L2.
      vm_compute. reflexivity.
    + repeat constructor; eexists; eassumption.
Qed.

End MergeFacts.

(** The example of the specification, with lower-casing of the letters A to
    Z: one entry, the model task. *)
Lemma merge_task_extractions_witness :
  let model_task := [(py "title", PStr (py "Buy milk"));
                     (py "extraction_method", PStr (py "ai"))] in
  let rule_task := [(py "title", PStr (py "buy some milk"));
                    (py "estimated_date", PStr (py "2024-01-11"));
                    (py "extraction_method", PStr (py "rules"))] in
  _merge_task_extractions ascii_lower [rule_task] [model_task]
  = [[(py "title", PStr (py "Buy milk"));
      (py "extraction_method", PStr (py "ai"));
      (py "estimated_date", PStr (py "2024-01-11"))]]
  /\ _merge_task_extractions ascii_lower [rule_task] [model_task]
     = fold_left (merge_step ascii_lower) [rule_task] [model_task].
Proof.
  cbv zeta.
  destruct (merge_task_extractions_spec ascii_lower
              [[(py "title", PStr (py "buy some milk"));
                (py "estimated_date", PStr (py "2024-01-11"));
                (py "extraction_method", PStr (py "rules"))]]
              [[(py "title", PStr (py "Buy milk"));
                (py "extraction_method", PStr (py "ai"))]])
    as (Href & _ & _ & _ & _ & _ & Hex).
  split.
  - destruct (Hex [(py "title", PStr (py "Buy milk"));
                   (py "extraction_method", PStr (py "ai"))]
                  [(py "title", PStr (py "buy some milk"));
                   (py "estimated_date", PStr (py "2024-01-11"));
                   (py "extraction_method", PStr (py "rules"))]
                  eq_refl eq_refl eq_refl eq_refl) as [_ E].
    etransitivity; [exact E|]. vm_compute. reflexivity.
  - apply Href. repeat constructor; eexists; reflexivity.
Defined.

(** A model task without title sends the merge to its fall-back, the rule
    tasks followed by the model tasks. *)
Example merge_fallback_on_missing_title :
  _merge_task_extractions ascii_lower
    [[(py "title", PStr (py "buy milk"))]] [[(py "priority", PStr (py "haute"))]]
  = [[(py "title", PStr (py "buy milk"))]; [(py "priority", PStr (py "haute"))]].
Proof. reflexivity. Qed.

(* ================================================================== *)
(** * 19. The extraction pipeline                                      *)
(* ================================================================== *)

Section PipelineFacts.

Variable S : Type.
Variable by_rules : str -> M S (list dict).
Variable by_ai : str -> list dict -> M S (list dict).
Variable merge : list dict -> list dict -> M S (list dict).
Variable enrich : list dict -> str -> M S (list dict).
Variable log : str -> str -> str -> list dict -> M S unit.
Variable confidence : list dict -> M S Q.

Local Abbreviation body := (extract_try by_rules by_ai merge enrich log confidence).
Local Abbreviation pipeline :=
  (extract_pipeline by_rules by_ai merge enrich log confidence).

(** C4.  Whatever the six methods called in the body do, the function
    returns a result and never raises: the result of the body when it
    returns, and when the body raises [e] the result with no task,
    confidence 0.0, method [error] and the message of [e]. *)
Theorem extract_never_raises (message user_id conversation_id : str)
    (conversation_context : option (list dict)) (now : datetime) (s : S) :
  (exists s' r,
      pipeline message user_id conversation_id conversation_context now s
      = (s', Ok r))
  /\ (forall s' e,
        body message user_id conversation_id conversation_context now s
        = (s', Raise e) ->
        pipeline message user_id conversation_id conversation_context now s
        = (s', Ok (error_result e)))
  /\ (forall s' r,
        body message user_id conversation_id conversation_context now s
        = (s', Ok r) ->
        pipeline message user_id conversation_id conversation_context now s
        = (s', Ok r))
  /\ (forall e,
        tasks_found (error_result e) = []
        /\ confidence_score (error_result e) = 0
        /\ extraction_method (error_result e) = py "error"
        /\ error (error_result e) = Some (exn_message e)).
Proof.
  unfold extract_pipeline, try_exceptM, ret.
  destruct (body message user_id conversation_id conversation_context now s)
    as [s1 [r|e]].
  - split; [exists s1, r; reflexivity|].
    split; [intros s' e E; discriminate E|].
    split; [intros s' r' E; exact E|].
    intros e. repeat split.
  - split; [exists s1, (error_result e); reflexivity|].
    split; [intros s' e' E; injection E as <- <-; reflexivity|].
    split; [intros s' r' E; discriminate E|].
    intros e'. repeat split.
Qed.

End PipelineFacts.

(** A merge that raises: the result carries its message. *)
Lemma extract_never_raises_witness :
  extract_pipeline no_tasks (fun _ _ => ret []) failing_merge
    (fun tasks _ => ret tasks) (fun _ _ _ _ => ret tt) (fun _ => ret 0)
    (py "acheter du lait") (py "u1") (py "c1") None sample_now sample_db
  = (sample_db,
     Ok (Extraction [] (py "error") 0 None
           (Some (py "unhashable type: 'list'")))).
Proof.
  destruct (extract_never_raises collections no_tasks (fun _ _ => ret [])
              failing_merge (fun tasks _ => ret tasks)
              (fun _ _ _ _ => ret tt) (fun _ => ret 0)
              (py "acheter du lait") (py "u1") (py "c1") None sample_now
              sample_db) as (_ & H & _).
  apply (H sample_db (Exn TypeError (py "unhashable type: 'list'"))).
  reflexivity.
Defined.

(* ================================================================== *)
(** * 20. A model response that is not JSON                            *)
(* ================================================================== *)

Lemma agree_except_refl keys a : agree_except keys a a.
Proof. intros k _. reflexivity. Qed.

Lemma agree_except_trans keys a b c :
  agree_except keys a b -> agree_except keys b c -> agree_except keys a c.
Proof. intros H1 H2 k Hk. rewrite (H2 k Hk). apply H1, Hk. Qed.

Lemma agree_except_dset keys k' v a :
  mem k' keys = true -> agree_except keys a (dset k' v a).
Proof.
  intros Hk' k Hk. apply dget_dset_other.
  destruct (str_eqb k k') eqn:E; [|reflexivity].
  apply str_eqb_eq in E. subst k'. congruence.
Qed.

Lemma same_but_date_agree a b :
  same_but_date a b -> agree_except enrichment_keys a b.
Proof.
  intros [->|[v ->]]; [apply agree_except_refl|].
  apply agree_except_dset. reflexivity.
Qed.

Lemma rule_shaped_has_title t : rule_shaped t -> has_title t.
Proof.
  intros (title & d & p & date & ->). exists (PStr title). reflexivity.
Qed.

Lemma rule_shaped_confidence r t :
  rule_shaped r -> agree_except enrichment_keys r t ->
  dget (py "confidence") t = Some (PNum 0.7).
Proof.
  intros (title & d & p & date & ->) H.
  rewrite (H (py "confidence")); reflexivity.
Qed.

Lemma sum_confidence_rules (tasks : list dict) (acc : Q) :
  Forall (fun t => dget (py "confidence") t = Some (PNum 0.7)) tasks ->
  exists q, sum_confidence tasks acc = Ok q
            /\ q == acc + inject_Z (Z.of_nat (length tasks)) * 0.7.
Proof.
  intros H. revert acc. induction H as [|t rest Ht H IH]; intros acc.
  - exists acc. split; [reflexivity|]. simpl. ring.
  - cbn [sum_confidence]. unfold dget_default. rewrite Ht. simpl.
    destruct (IH (acc + 0.7)) as (q & E & Hq).
    exists q. split; [exact E|]. rewrite Hq.
    rewrite Zpos_P_of_succ_nat. unfold Z.succ.
    rewrite inject_Z_plus. ring.
Qed.

(** The confidence of tasks that all carry 0.7 is 0.7. *)
Lemma confidence_of_rules (tasks : list dict) :
  Forall (fun t => dget (py "confidence") t = Some (PNum 0.7)) tasks ->
  (tasks = [] -> _calculate_confidence tasks = 0)
  /\ (tasks <> [] -> _calculate_confidence tasks == 0.7).
Proof.
  intros H. split; [intros ->; reflexivity|].
  intros N. destruct tasks as [|t rest]; [contradiction|].
  unfold _calculate_confidence.
  destruct (sum_confidence_rules (t :: rest) 0 H) as (q & E & Hq).
  rewrite E. simpl bind. rewrite try_except_ok.
  assert (P : 0 < inject_Z (Z.of_nat (length (t :: rest)))).
  { change 0 with (inject_Z 0). rewrite <- Zlt_Qlt. simpl. lia. }
  assert (D : q / inject_Z (Z.of_nat (length (t :: rest))) == 0.7).
  { rewrite Hq. field. intros Z0. rewrite Z0 in P.
    apply (Qlt_irrefl _ P). }
  rewrite py_min_Qmin, Q.min_l; [exact D|].
  rewrite D. discriminate.
Qed.

Lemma Forall2_In_right {A B} (R : A -> B -> Prop) l l' y :
  Forall2 R l l' -> In y l' -> exists x, In x l /\ R x y.
Proof.
  induction 1 as [|a b l l' Hab H IH]; intros Hy; [destruct Hy|].
  destruct Hy as [<-|Hy].
  - exists a. split; [left; reflexivity|exact Hab].
  - destruct (IH Hy) as (x & Hx & Rx). exists x. split; [right|]; assumption.
Qed.

Section ExtractionFacts.

Variable lower : str -> str.
Variable capitalize : str -> str.
Variable py_repr : pyval -> str.
Variable chat_completion : str -> result str.
Variable json_loads : str -> result pyval.
Variable S : Type.
Variable db : storage S.

Local Abbreviation by_rules := (_extract_by_rules lower capitalize).
Local Abbreviation by_ai := (_extract_by_ai py_repr chat_completion json_loads).
Local Abbreviation enrich := (_enrich_tasks_with_context lower db).
Local Abbreviation extract :=
  (extract_tasks_from_message lower capitalize py_repr chat_completion
     json_loads db).

Lemma parse_task_shaped sentence verb today t :
  _parse_task_from_sentence capitalize sentence verb today = Some t ->
  rule_shaped t.
Proof.
  unfold _parse_task_from_sentence.
  destruct (length _ <? 3)%nat; simpl; [discriminate|].
  intros E; injection E as <-.
  unfold rule_shaped, opt_str. eexists _, _, _, _. reflexivity.
Qed.

Lemma rule_tasks_shaped message today :
  Forall rule_shaped (by_rules message today).
Proof.
  unfold _extract_by_rules. rewrite try_except_ok.
  induction (re_split_sentences (strip (lower message))) as [|x l IH];
    cbn [rule_tasks_of]; [constructor|].
  destruct (length (strip x) <? 5)%nat; [exact IH|].
  destruct (first_in action_verbs (strip x)) as [verb|]; [|exact IH].
  destruct (_parse_task_from_sentence capitalize (strip x) verb today)
    as [t|] eqn:P; [|exact IH].
  constructor; [eapply parse_task_shaped; exact P|exact IH].
Qed.

(** The model pass gives no task when the text is not JSON. *)
Lemma extract_by_ai_malformed message context content e :
  chat_completion (build_prompt py_repr message context) = Ok content ->
  json_loads (strip content) = Raise e ->
  exn_kind e = JSONDecodeError ->
  by_ai message context = [].
Proof.
  intros Hc Hj Hk. unfold _extract_by_ai, parse_ai_tasks.
  rewrite Hc. simpl. rewrite Hj, Hk. reflexivity.
Qed.

Lemma adjust_priority_agree task user_id s :
  agree_except enrichment_keys task
    (_adjust_priority_by_profile db task user_id s).
Proof.
  unfold _adjust_priority_by_profile.
  destruct (behavior_find_one db user_id s) as [[[|f p]|]|e]; simpl;
    try apply agree_except_refl.
  destruct (is_str _ (py "high")); simpl; [|apply agree_except_refl].
  destruct (getitem (py "priority") task) as [v|e]; simpl;
    [|apply agree_except_refl].
  destruct (is_str v (py "basse")); simpl;
    [apply agree_except_dset; reflexivity|].
  destruct (is_str v (py "moyenne")); simpl;
    [apply agree_except_dset; reflexivity|apply agree_except_refl].
Qed.

Lemma enrich_one_agree goals profile user_id s task :
  agree_except enrichment_keys task
    (fst (enrich_one lower db goals profile user_id s task)).
Proof.
  unfold enrich_one.
  assert (C : forall t, agree_except enrichment_keys task t ->
                agree_except enrichment_keys task
                  (fst (let task0 :=
                          match profile with
                          | Some (f :: p) =>
                              dset (py "category")
                                (dget_default (py "domain")
                                   (PStr (py "général")) (f :: p)) t
                          | _ => t
                          end in
                        (_adjust_priority_by_profile db task0 user_id s,
                         Ok tt)))).
  { intros t Ht. simpl.
    eapply agree_except_trans; [|apply adjust_priority_agree].
    destruct profile as [[|f p]|]; try exact Ht.
    eapply agree_except_trans; [exact Ht|].
    apply agree_except_dset. reflexivity. }
  destruct (_find_related_goal lower task goals) as [[|f g]|];
    try (apply C, agree_except_refl).
  destruct (getitem (py "id") (f :: g)) as [i|e];
    [|simpl; apply agree_except_refl].
  destruct (getitem (py "title") (f :: g)) as [t|e].
  - apply C.
    eapply agree_except_trans; apply agree_except_dset; reflexivity.
  - simpl. apply agree_except_dset. reflexivity.
Qed.

Lemma enrich_loop_agree goals profile user_id s tasks :
  Forall2 (agree_except enrichment_keys) tasks
    (fst (enrich_loop lower db goals profile user_id s tasks)).
Proof.
  induction tasks as [|t rest IH]; simpl; [constructor|].
  pose proof (enrich_one_agree goals profile user_id s t) as H.
  destruct (enrich_one lower db goals profile user_id s t) as [t' [[]|e]];
    simpl in *.
  - destruct (enrich_loop lower db goals profile user_id s rest)
      as [rest' r]. simpl in *. constructor; assumption.
  - constructor; [exact H|].
    clear. induction rest; constructor; auto using agree_except_refl.
Qed.

(** Enrichment keeps the tasks, their number and their order; it writes
    only the goal link, the category and the priority. *)
Lemma enrich_agree tasks user_id s :
  Forall2 (agree_except enrichment_keys) tasks (enrich tasks user_id s).
Proof.
  unfold _enrich_tasks_with_context.
  assert (R : Forall2 (agree_except enrichment_keys) tasks tasks)
    by (induction tasks; constructor; auto using agree_except_refl).
  destruct (goals_find_active db user_id s) as [goals|e]; [|exact R].
  destruct (onboarding_find_one db user_id s) as [profile|e]; [|exact R].
  apply enrich_loop_agree.
Qed.

(** The function always answers with the hybrid result: each of the six
    methods catches what it raises. *)
Lemma extract_is_hybrid message user_id conversation_id conversation_context
    today t_log now s :
  let context := match conversation_context with
                 | Some (m :: c) => m :: c
                 | _ => []
                 end in
  let found :=
    enrich (_merge_task_extractions lower (by_rules message today)
              (by_ai message context)) user_id s in
  exists s',
    extract message user_id conversation_id conversation_context
      today t_log now s
    = (s', Ok (Extraction found (py "hybrid") (_calculate_confidence found)
                 (Some now) None)).
Proof.
  cbv zeta.
  unfold extract_tasks_from_message, extract_pipeline, extract_try,
    _log_extraction, try_exceptM, bindM, ret, read.
  match goal with
  | |- context [log_insert_one db ?entry s] =>
      destruct (log_insert_one db entry s) as [s1 [[]|e]]
  end; eexists; reflexivity.
Qed.

(** C3.  When the completion service answers with a text that the JSON
    parser refuses, the model pass gives no task and the function returns
    the hybrid result, not the error result: its tasks are the rule tasks
    after merge (among themselves) and enrichment, each one a task of the
    rule pass with the same title, description, method and confidence, and
    the confidence score is computed on them alone: 0.0 when none is
    left, 0.7 otherwise. *)
Theorem malformed_model_response
    (message user_id conversation_id : str)
    (conversation_context : option (list dict))
    (today t_log now : datetime) (s : S) (content : str) (e : exn) :
  let context := match conversation_context with
                 | Some (m :: c) => m :: c
                 | _ => []
                 end in
  chat_completion (build_prompt py_repr message context) = Ok content ->
  json_loads (strip content) = Raise e ->
  exn_kind e = JSONDecodeError ->
  let rules := by_rules message today in
  let found := enrich (fold_left (merge_step lower) rules []) user_id s in
  by_ai message context = []
  /\ (exists s',
        extract message user_id conversation_id conversation_context
          today t_log now s
        = (s', Ok (Extraction found (py "hybrid")
                     (_calculate_confidence found) (Some now) None)))
  /\ (forall t, In t found -> rule_derived rules t)
  /\ (length found <= length rules)%nat
  /\ (found = [] -> _calculate_confidence found = 0)
  /\ (found <> [] -> _calculate_confidence found == 0.7).
Proof.
  cbv zeta. intros Hc Hj Hk.
  pose proof (extract_by_ai_malformed message _ content e Hc Hj Hk) as Hai.
  pose proof (rule_tasks_shaped message today) as Hshape.
  assert (Hmerge : _merge_task_extractions lower (by_rules message today) []
                   = fold_left (merge_step lower) (by_rules message today) []).
  { apply merge_refines_spec. simpl.
    eapply Forall_impl; [|exact Hshape]. apply rule_shaped_has_title. }
  destruct (merge_spec_model_first lower (by_rules message today) [])
    as (m' & tail & Ef & F & T & L).
  inversion F; subst m'. simpl in Ef.
  pose proof (enrich_agree (fold_left (merge_step lower)
                              (by_rules message today) []) user_id s) as Ha.
  assert (Hder : forall t,
             In t (enrich (fold_left (merge_step lower)
                             (by_rules message today) []) user_id s) ->
             rule_derived (by_rules message today) t).
  { intros t Ht.
    destruct (Forall2_In_right _ _ _ _ Ha Ht) as (x & Hx & Hxt).
    rewrite Ef in Hx. destruct (T x Hx) as (r & Hr & Srx).
    exists r. split; [exact Hr|]. split.
    - rewrite Forall_forall in Hshape. apply Hshape, Hr.
    - eapply agree_except_trans; [apply same_but_date_agree, Srx|exact Hxt]. }
  split; [exact Hai|]. split.
  - destruct (extract_is_hybrid message user_id conversation_id
                conversation_context today t_log now s) as [s' E].
    cbv zeta in E. rewrite Hai, Hmerge in E. exists s'. exact E.
  - split; [exact Hder|]. split.
    + rewrite <- (Forall2_length Ha), Ef. exact L.
    + apply confidence_of_rules. apply Forall_forall. intros t Ht.
      destruct (Hder t Ht) as (r & _ & Sr & Ar).
      eapply rule_shaped_confidence; eauto.
Qed.

End ExtractionFacts.
